(** * HeatTransferConduction: steady conduction through a composite slab

    A shallow embedding of the code cells of the notebook
    [jupyter_notebooks/.ipynb_checkpoints/HeatTransferConduction-checkpoint.ipynb]
    (line numbers are those of this file).  The notebook computes, for a wall made of
    layers with conductivities [k] and thicknesses [L] between the station
    temperatures [T1] and [T4]:

    - the area-resistances [AR[i] = L[i]/k[i]]            (lines 318-320),
    - the heat flux [q = float(T1 - T4)/np.sum(AR)]      (line 350),
    - the inner temperatures [T2 = -q*AR[0] + T1] and
      [T3 = q*AR[2] + T4]                                (lines 392-393),
    - the plotted series [T] and [x]                     (lines 395-396).

    The cells are written once, over an abstract arithmetic ([Arith]), and
    read twice: over IEEE binary64 ([binary64], what Python's [float] and
    numpy's [float64] compute) and over the real numbers ([exact], the
    arithmetic the formulas are derived in). *)

From Stdlib Require Import ZArith List Bool Lia QArith Qabs Qminmax Reals Lra Psatz Floats.
Import ListNotations.

Set Warnings "-inexact-float".

Close Scope Q_scope.
Open Scope nat_scope.

(** ** Python values and exceptions *)

(** The exceptions the cells can raise. *)
Inductive exn : Set :=
| ZeroDivisionError
| IndexError
| OverflowError.

(** The outcome of evaluating an expression or a cell. *)
Inductive result (A : Type) : Type :=
| Ok (a : A)
| Raise (e : exn).

Arguments Ok {A} a.
Arguments Raise {A} e.

Definition bind {A B : Type} (m : result A) (f : A -> result B) : result B :=
  match m with
  | Ok a => f a
  | Raise e => Raise e
  end.

Notation "x <- m ;; f" := (bind m (fun x => f))
  (at level 61, m at next level, right associativity).

(** The arithmetic of Python's [float]:  the constant [0.0], [float(n)] of
    an [int] (which raises [OverflowError] when [n] is out of range), the
    four operations as the hardware performs them (no exception), unary
    minus and the test [x == 0.0]. *)
Class Arith (num : Type) : Type := {
  n_zero : num;
  n_of_int : Z -> result num;
  n_add : num -> num -> num;
  n_sub : num -> num -> num;
  n_mul : num -> num -> num;
  n_div : num -> num -> num;
  n_neg : num -> num;
  n_eq0 : num -> bool
}.

Declare Scope num_scope.
Delimit Scope num_scope with num.
Notation "x + y" := (n_add x y) : num_scope.
Notation "x - y" := (n_sub x y) : num_scope.
Notation "x * y" := (n_mul x y) : num_scope.
Notation "x / y" := (n_div x y) : num_scope.
Notation "- x" := (n_neg x) : num_scope.

(** A Python number: the station temperatures are written as [int]
    literals ([T1 = 150]), the conductivities and thicknesses as [float]
    literals. *)
Inductive pyval (num : Type) : Type :=
| PyInt (n : Z)
| PyFloat (v : num).

Arguments PyInt {num} n.
Arguments PyFloat {num} v.

(** The record of everything the cells bind. *)
Record outputs (num : Type) : Type := {
  o_AR : list num;
  o_q : num;
  o_T2 : num;
  o_T3 : num;
  o_T : list (pyval num);
  o_x : list (pyval num)
}.

Arguments o_AR {num} o.
Arguments o_q {num} o.
Arguments o_T2 {num} o.
Arguments o_T3 {num} o.
Arguments o_T {num} o.
Arguments o_x {num} o.

Section Notebook.

Context {num : Type} {A : Arith num}.
Local Open Scope num_scope.

(** [float(v)] *)
Definition py_float (v : pyval num) : result num :=
  match v with
  | PyInt n => n_of_int n
  | PyFloat f => Ok f
  end.

(** [a - b] on Python numbers: exact on two [int]s, otherwise both
    operands are taken to [float] first. *)
Definition py_sub (a b : pyval num) : result (pyval num) :=
  match a, b with
  | PyInt m, PyInt n => Ok (PyInt (m - n))
  | _, _ => f <- py_float a ;; g <- py_float b ;; Ok (PyFloat (f - g))
  end.

(** [a / b] on two Python [float]s: a zero divisor raises. *)
Definition py_truediv (a b : num) : result num :=
  if n_eq0 b then Raise ZeroDivisionError else Ok (a / b).

(** [l[i]] for an index [i >= 0]. *)
Definition getitem {B : Type} (l : list B) (i : nat) : result B :=
  match nth_error l i with
  | Some b => Ok b
  | None => Raise IndexError
  end.

(** [np.sum(a)], as numpy computes it for an array of [float64]: the
    reduction starts from the identity [0.0] and adds to it what numpy's
    [pairwise_sum] returns for the whole array.  That function adds an
    array of fewer than eight elements left to right from [0.0]; one of
    8 to 128 elements in eight accumulators, the [j]-th taking the
    elements [j], [j+8], [j+16], ... of the complete blocks of eight, which
    it then adds as [((r0+r1)+(r2+r3))+((r4+r5)+(r6+r7))] before adding
    the elements left over, in order; and a longer array as the sum of
    its two parts, cut at half the length rounded down to a multiple of
    eight. *)
Fixpoint unrolled_sum (r0 r1 r2 r3 r4 r5 r6 r7 : num) (a : list num) : num :=
  match a with
  | c0 :: c1 :: c2 :: c3 :: c4 :: c5 :: c6 :: c7 :: rest =>
      unrolled_sum (r0 + c0) (r1 + c1) (r2 + c2) (r3 + c3)
                   (r4 + c4) (r5 + c5) (r6 + c6) (r7 + c7) rest
  | _ =>
      fold_left n_add a (((r0 + r1) + (r2 + r3)) + ((r4 + r5) + (r6 + r7)))
  end.

(** [fuel] bounds the depth of the halving; the length of the array is
    enough ([pairwise_sum_fuel]). *)
Fixpoint pairwise_sum (fuel : nat) (a : list num) : num :=
  if (length a <? 8)%nat then fold_left n_add a n_zero
  else if (length a <=? 128)%nat then
    match a with
    | c0 :: c1 :: c2 :: c3 :: c4 :: c5 :: c6 :: c7 :: rest =>
        unrolled_sum c0 c1 c2 c3 c4 c5 c6 c7 rest
    | _ => n_zero
    end
  else
    match fuel with
    | O => n_zero
    | S fuel' =>
        let n2 := (length a / 2 - (length a / 2) mod 8)%nat in
        pairwise_sum fuel' (firstn n2 a) + pairwise_sum fuel' (skipn n2 a)
    end.

Definition np_sum (a : list num) : num := n_zero + pairwise_sum (length a) a.

(** [f + v] for a numpy [float64] [f] and a Python number [v]. *)
Definition np_add (f : num) (v : pyval num) : result num :=
  g <- py_float v ;; Ok (f + g).

(** [for i in idx: s = body(s, i)] *)
Fixpoint for_each {S : Type} (body : S -> nat -> result S) (idx : list nat) (s : S)
  : result S :=
  match idx with
  | [] => Ok s
  | i :: rest => s' <- body s i ;; for_each body rest s'
  end.

(** [AR.append(L[i]/k[i])]: [L[i]] is evaluated before [k[i]]. *)
Definition AR_body (k L : list num) (AR : list num) (i : nat) : result (list num) :=
  Li <- getitem L i ;;
  ki <- getitem k i ;;
  r <- py_truediv Li ki ;;
  Ok (AR ++ [r]).

(** Lines 318-320:
    [AR = []]
    [for i in range(0,len(k)): AR.append(L[i]/k[i])] *)
Definition cell_AR (k L : list num) : result (list num) :=
  for_each (AR_body k L) (seq 0 (length k)) [].

(** Line 350: [q = float(T1 - T4)/np.sum(AR)].  The quotient is numpy's:
    a zero divisor gives an infinity or a NaN, not an exception. *)
Definition float_diff (T1 T4 : pyval num) : result num :=
  d <- py_sub T1 T4 ;; py_float d.

Definition cell_q (T1 T4 : pyval num) (AR : list num) : result num :=
  f <- float_diff T1 T4 ;;
  Ok (f / np_sum AR).

(** Lines 392-393: [T2 = -q*AR[0] + T1] and [T3 = q*AR[2] + T4]. *)
Definition cell_T2 (T1 : pyval num) (AR : list num) (q : num) : result num :=
  a0 <- getitem AR 0 ;; np_add (- q * a0) T1.

Definition cell_T3 (T4 : pyval num) (AR : list num) (q : num) : result num :=
  a2 <- getitem AR 2 ;; np_add (q * a2) T4.

(** Line 396: [x = [0, L[0], L[0]+L[1], L[0]+L[1]+L[2]]]. *)
Definition cell_x (L : list num) : result (list (pyval num)) :=
  l0 <- getitem L 0 ;;
  l1 <- getitem L 1 ;;
  l2 <- getitem L 2 ;;
  Ok [PyInt 0; PyFloat l0; PyFloat (l0 + l1); PyFloat (l0 + l1 + l2)].

(** The code cells in the order the notebook runs them. *)
Definition notebook (T1 T4 : pyval num) (k L : list num) : result (outputs num) :=
  AR <- cell_AR k L ;;
  q <- cell_q T1 T4 AR ;;
  T2 <- cell_T2 T1 AR q ;;
  T3 <- cell_T3 T4 AR q ;;
  x <- cell_x L ;;
  Ok {| o_AR := AR; o_q := q; o_T2 := T2; o_T3 := T3;
        o_T := [T1; PyFloat T2; PyFloat T3; T4]; o_x := x |}.

(** *** The loop, read as a recursion on the two lists

    [AR_rec] is the recursion [cell_AR_rec] shows the loop to compute; it is
    the form the proofs below go by. *)
Fixpoint AR_rec (k L : list num) : result (list num) :=
  match k with
  | [] => Ok []
  | ki :: k' =>
      match L with
      | [] => Raise IndexError
      | Li :: L' =>
          r <- py_truediv Li ki ;;
          rest <- AR_rec k' L' ;;
          Ok (r :: rest)
      end
  end.

(** The quotients [L[i]/k[i]] of the indices both lists have. *)
Fixpoint quotients (k L : list num) : list num :=
  match k, L with
  | ki :: k', Li :: L' => Li / ki :: quotients k' L'
  | _, _ => []
  end.

(** What the cells bind when none of them raises, in closed form: [d] is
    [float(T1 - T4)], and [t1] and [t4] are [T1] and [T4] as [float]s. *)
Definition closed_form (d t1 t4 : num) (T1 T4 : pyval num) (k L : list num)
  : outputs num :=
  let AR := quotients k L in
  let q := d / np_sum AR in
  let T2 := - q * nth 0 AR n_zero + t1 in
  let T3 := q * nth 2 AR n_zero + t4 in
  let l0 := nth 0 L n_zero in
  let l1 := nth 1 L n_zero in
  let l2 := nth 2 L n_zero in
  {| o_AR := AR; o_q := q; o_T2 := T2; o_T3 := T3;
     o_T := [T1; PyFloat T2; PyFloat T3; T4];
     o_x := [PyInt 0; PyFloat l0; PyFloat (l0 + l1); PyFloat (l0 + l1 + l2)] |}.

(** *** The iteration the specification describes

    The notebook applies one step from each end: [T2] comes from [T1] by
    [fwd_step] (line 392) and [T3] from [T4] by [bwd_step] (line 393).  The
    specification iterates each step over all the layers; [forward_temps]
    and [backward_temps] are these two iterations, written from its
    sentences [T_next = T_current - q * R_layer] and
    [T_prev = T_next + q * R_layer] with the notebook's two expressions as
    the steps. *)
Definition fwd_step (q T_current R_layer : num) : num := - q * R_layer + T_current.

Definition bwd_step (q R_layer T_next : num) : num := q * R_layer + T_next.

Fixpoint forward_temps (q T_first : num) (AR : list num) : list num :=
  match AR with
  | [] => [T_first]
  | r :: rest => T_first :: forward_temps q (fwd_step q T_first r) rest
  end.

Fixpoint backward_temps (q : num) (AR : list num) (T_last : num) : list num :=
  match AR with
  | [] => [T_last]
  | r :: rest =>
      let tl := backward_temps q rest T_last in
      bwd_step q r (hd T_last tl) :: tl
  end.

End Notebook.

(** ** Binary64: the arithmetic the notebook runs in *)

(** [float(n)]: the nearest binary64 value, ties to even; a magnitude that
    rounds past the largest finite value raises [OverflowError]. *)
Definition float_of_Z (n : Z) : result float :=
  match binary_normalize prec emax n 0 false with
  | S754_infinity _ => Raise OverflowError
  | s => Ok (SF2Prim s)
  end.

#[export] Instance binary64 : Arith float := {|
  n_zero := 0%float;
  n_of_int := float_of_Z;
  n_add := PrimFloat.add;
  n_sub := PrimFloat.sub;
  n_mul := PrimFloat.mul;
  n_div := PrimFloat.div;
  n_neg := PrimFloat.opp;
  n_eq0 := fun f => PrimFloat.eqb f 0%float
|}.

(** [0 < f], as Python's comparison decides it (false on a NaN). *)
Definition positive64 (f : float) : Prop := PrimFloat.ltb 0%float f = true.

(** [f] is neither a NaN nor an infinity ([math.isfinite(f)]). *)
Definition finite64 (f : float) : Prop := PrimFloat.is_finite f = true.

(** [0 <= f], as Python's comparison decides it (false on a NaN). *)
Definition nonneg64 (f : float) : Prop := PrimFloat.leb 0%float f = true.

(** A value that is a zero, a finite number or an infinity of sign [s]
    ([true] is the negative sign), and not a NaN. *)
Definition signed (s : bool) (x : spec_float) : Prop :=
  match x with
  | S754_zero s' | S754_infinity s' | S754_finite s' _ _ => s' = s
  | S754_nan => False
  end.

(** A value that is positive: a finite number or the infinity of
    positive sign. *)
Definition spos (x : spec_float) : Prop :=
  match x with
  | S754_finite false _ _ | S754_infinity false => True
  | _ => False
  end.

(** [T1 > T4] for the two boundary temperatures: on two [int]s, the order
    of the integers; otherwise the order of the two [float]s that
    [T1 - T4] subtracts, an [int] operand being converted first. *)
Definition warmer64 (T1 T4 : pyval float) : Prop :=
  match T1, T4 with
  | PyInt m, PyInt n => (n < m)%Z
  | _, _ =>
      match py_float T1, py_float T4 with
      | Ok t1, Ok t4 => PrimFloat.ltb t4 t1 = true
      | _, _ => False
      end
  end.

(** The rational number a finite binary64 value stands for. *)
Definition float_to_Q (f : float) : option Q :=
  match Prim2SF f with
  | S754_zero _ => Some 0%Q
  | S754_finite s m e =>
      Some (inject_Z (if s then Z.neg m else Z.pos m) * Qpower 2 e)%Q
  | _ => None
  end.

(** [|f - c| <= tol], decided on the exact values. *)
Definition within (tol c : Q) (f : float) : bool :=
  match float_to_Q f with
  | Some v => Qle_bool (Qabs (v - c)) tol
  | None => false
  end.

(** The test of Python's [math.isclose(a, b, rel_tol)]:
    [|a - b| <= rel_tol * max(|a|, |b|)], decided on the exact values. *)
Definition isclose (rel_tol : Q) (a b : float) : bool :=
  match float_to_Q a, float_to_Q b with
  | Some u, Some v => Qle_bool (Qabs (u - v)) (rel_tol * Qmax (Qabs u) (Qabs v))
  | _, _ => false
  end.

(** The mathematical sum of finite binary64 values, as a rational; [None]
    when one of them is an infinity or a NaN. *)
Fixpoint exact_sum64 (l : list float) : option Q :=
  match l with
  | [] => Some 0%Q
  | f :: rest =>
      match float_to_Q f, exact_sum64 rest with
      | Some v, Some s => Some (Qred (v + s))
      | _, _ => None
      end
  end.

(** The worked example of the notebook (lines 311-316). *)
Definition T1_example : pyval float := PyInt 150.
Definition T4_example : pyval float := PyInt 10.
Definition k_example : list float := [0.07; 0.7; 0.07]%float.
Definition L_example : list float := [0.03; 0.1; 0.03]%float.

(** ** Exact arithmetic: the formulas over the real numbers *)

#[export] Instance exact : Arith R := {|
  n_zero := 0%R;
  n_of_int := fun n => Ok (IZR n);
  n_add := Rplus;
  n_sub := Rminus;
  n_mul := Rmult;
  n_div := Rdiv;
  n_neg := Ropp;
  n_eq0 := fun r => if Req_dec_T r 0%R then true else false
|}.

(** [0 < r] *)
Definition positiveR (r : R) : Prop := (0 < r)%R.

(** The value of a Python number as a real. *)
Definition valueR (v : pyval R) : R :=
  match v with
  | PyInt n => IZR n
  | PyFloat r => r
  end.

(** The sum of the elements of a list of reals, in the words of the
    specification: the first element plus the sum of the others. *)
Definition sum_of (l : list R) : R := fold_right Rplus 0%R l.

(** The worked example with its decimal literals read as the rationals
    they denote. *)
Definition T1_exact : pyval R := PyInt 150.
Definition T4_exact : pyval R := PyInt 10.
Definition k_exact : list R := [7 / 100; 7 / 10; 7 / 100]%R.
Definition L_exact : list R := [3 / 100; 1 / 10; 3 / 100]%R.

(** Strictly increasing from each element to the next. *)
Fixpoint increasing (l : list R) : Prop :=
  match l with
  | a :: (b :: _) as tl => (a < b)%R /\ increasing tl
  | _ => True
  end.

(** Strictly decreasing from each element to the next. *)
Fixpoint decreasing (l : list R) : Prop :=
  match l with
  | a :: (b :: _) as tl => (b < a)%R /\ decreasing tl
  | _ => True
  end.

(** * Facts about the cells, in any arithmetic *)

Section NotebookFacts.

Context {num : Type} {A : Arith num}.
Local Open Scope num_scope.


Lemma skipn_at {B : Type} (l : list B) (i : nat) (b : B) :
  nth_error l i = Some b -> skipn i l = b :: skipn (S i) l.
Proof.
  revert i. induction l as [|a l IH]; intros [|i] H; simpl in *; try discriminate.
  - congruence.
  - rewrite (IH i H). reflexivity.
Qed.

Lemma skipn_past {B : Type} (l : list B) (i : nat) :
  nth_error l i = None -> skipn i l = [].
Proof.
  intros H. apply nth_error_None in H. apply skipn_all2. exact H.
Qed.

(** The loop from index [i] on, with [acc] appended so far, appends what
    the recursion computes from the two suffixes. *)
Lemma for_each_AR_body (k L : list num) :
  forall (n i : nat) (acc : list num),
    (i + n)%nat = length k ->
    for_each (AR_body k L) (seq i n) acc
    = (rest <- AR_rec (skipn i k) (skipn i L) ;; Ok (acc ++ rest)).
Proof.
  induction n as [|n IH]; intros i acc Hlen.
  - rewrite skipn_all2 by lia. simpl. rewrite app_nil_r. reflexivity.
  - assert (Hi : i < length k) by lia.
    destruct (nth_error k i) as [ki|] eqn:Hk;
      [|apply nth_error_None in Hk; lia].
    rewrite (skipn_at k i ki Hk).
    cbn [seq for_each]. unfold AR_body at 1. unfold getitem.
    destruct (nth_error L i) as [Li|] eqn:HL.
    + rewrite (skipn_at L i Li HL). rewrite Hk. cbn [bind AR_rec].
      unfold py_truediv. destruct (n_eq0 ki); cbn [bind]; [reflexivity|].
      rewrite IH by lia.
      destruct (AR_rec (skipn (S i) k) (skipn (S i) L)) as [rest|e]; cbn [bind];
        [|reflexivity].
      rewrite <- app_assoc. reflexivity.
    + rewrite (skipn_past L i HL). reflexivity.
Qed.

Lemma cell_AR_rec (k L : list num) : cell_AR k L = AR_rec k L.
Proof.
  unfold cell_AR. rewrite (for_each_AR_body k L (length k) 0 []) by lia.
  cbn [skipn]. destruct (AR_rec k L); reflexivity.
Qed.

(** The three outcomes of the loop: the first index at which it stops is
    a zero conductivity (among the indices [L] has), else the end of [L],
    else it does not stop. *)
Lemma AR_rec_cases (k L : list num) :
  AR_rec k L =
  if existsb n_eq0 (firstn (length L) k) then Raise ZeroDivisionError
  else if length L <? length k then Raise IndexError
  else Ok (quotients k L).
Proof.
  revert L. induction k as [|ki k IH]; intros L.
  - rewrite firstn_nil. destruct L; reflexivity.
  - destruct L as [|Li L]; [reflexivity|].
    cbn [AR_rec length firstn existsb quotients]. unfold py_truediv.
    destruct (n_eq0 ki); cbn [bind orb]; [reflexivity|].
    rewrite IH. destruct (existsb n_eq0 (firstn (length L) k)); [reflexivity|].
    change (S (length L) <? S (length k)) with (length L <? length k).
    destruct (length L <? length k); reflexivity.
Qed.

Lemma cell_AR_cases (k L : list num) :
  cell_AR k L =
  if existsb n_eq0 (firstn (length L) k) then Raise ZeroDivisionError
  else if length L <? length k then Raise IndexError
  else Ok (quotients k L).
Proof. rewrite cell_AR_rec. apply AR_rec_cases. Qed.

Lemma quotients_length (k L : list num) :
  length k <= length L -> length (quotients k L) = length k.
Proof.
  revert L. induction k as [|ki k IH]; intros [|Li L] H; simpl in *; try lia.
  rewrite IH by lia. reflexivity.
Qed.

Lemma quotients_nth (k L : list num) (d : num) :
  forall i, i < length k -> i < length L ->
    nth i (quotients k L) d = nth i L d / nth i k d.
Proof.
  revert L. induction k as [|ki k IH]; intros [|Li L] [|i] Hk HL; simpl in *; try lia.
  - reflexivity.
  - apply IH; lia.
Qed.

Lemma quotients_firstn (k L : list num) :
  quotients k (firstn (length k) L) = quotients k L.
Proof.
  revert L. induction k as [|ki k IH]; intros [|Li L]; simpl; try reflexivity.
  rewrite IH. reflexivity.
Qed.

Lemma no_zero_prefix (k : list num) (n : nat) :
  Forall (fun ki => n_eq0 ki = false) k -> existsb n_eq0 (firstn n k) = false.
Proof.
  intros H. revert n. induction H as [|ki k Hki _ IH]; intros [|n]; simpl; try reflexivity.
  rewrite Hki, IH. reflexivity.
Qed.

Lemma no_zero_firstn (k : list num) (n : nat) :
  Forall (fun ki => n_eq0 ki = false) (firstn n k) -> existsb n_eq0 (firstn n k) = false.
Proof.
  intros H. rewrite <- (firstn_all (firstn n k)). apply no_zero_prefix. exact H.
Qed.

End NotebookFacts.

Section NotebookOutcome.

Context {num : Type} {A : Arith num}.
Local Open Scope num_scope.

(** The outcome of the whole notebook, when the conversions of the two
    temperatures to [float] succeed: the loop's two exceptions, an
    [IndexError] at [AR[0]] or [AR[2]] on fewer than three layers, and
    otherwise the closed form. *)
Lemma notebook_cases (T1 T4 : pyval num) (k L : list num) (d t1 t4 : num) :
  float_diff T1 T4 = Ok d ->
  py_float T1 = Ok t1 ->
  py_float T4 = Ok t4 ->
  notebook T1 T4 k L =
  if existsb n_eq0 (firstn (length L) k) then Raise ZeroDivisionError
  else if (length L <? length k) || (length k <? 3) then Raise IndexError
  else Ok (closed_form d t1 t4 T1 T4 k L).
Proof.
  intros Hd H1 H4. unfold notebook. rewrite cell_AR_cases.
  destruct (existsb n_eq0 (firstn (length L) k)); [reflexivity|].
  destruct (length L <? length k) eqn:Hlen; [reflexivity|].
  apply Nat.ltb_ge in Hlen. cbn [bind orb].
  unfold cell_q. rewrite Hd. cbn [bind].
  unfold cell_T2, cell_T3, cell_x, np_add. rewrite H1, H4.
  destruct k as [|k0 [|k1 [|k2 k]]]; try reflexivity;
    destruct L as [|l0 [|l1 [|l2 L]]]; simpl in Hlen; try lia; reflexivity.
Qed.

End NotebookOutcome.

(** * Facts about [np.sum], in any arithmetic *)

Section SumFacts.

Context {num : Type} {A : Arith num}.
Local Open Scope num_scope.

Lemma Forall_firstn_keeps {B : Type} (P : B -> Prop) (n : nat) (l : list B) :
  Forall P l -> Forall P (firstn n l).
Proof.
  intros H. revert n. induction H as [|b l Hb _ IH]; intros [|n]; cbn [firstn];
    constructor; auto.
Qed.

Lemma Forall_skipn_keeps {B : Type} (P : B -> Prop) (n : nat) (l : list B) :
  Forall P l -> Forall P (skipn n l).
Proof.
  intros H. revert n. induction H as [|b l Hb Hl IH]; intros [|n]; cbn [skipn];
    try constructor; auto.
Qed.

(** The two parts a long array is cut into are shorter than it. *)
Lemma halves_shorter (n : nat) :
  128 < n ->
  0 < n / 2 - (n / 2) mod 8 /\ n / 2 - (n / 2) mod 8 < n.
Proof.
  intros Hn.
  pose proof (Nat.div_mod_eq n 2) as Hdiv.
  pose proof (Nat.mod_upper_bound n 2 ltac:(lia)) as Hmod2.
  pose proof (Nat.mod_upper_bound (n / 2) 8 ltac:(lia)) as Hmod8.
  lia.
Qed.

(** With the length of the array for fuel the halving never runs out: any
    two amounts of fuel that large give the same sum. *)
Lemma pairwise_sum_fuel (f1 : nat) :
  forall (f2 : nat) (a : list num),
    length a <= f1 -> length a <= f2 -> pairwise_sum f1 a = pairwise_sum f2 a.
Proof.
  induction f1 as [|f1 IH]; intros f2 a H1 H2.
  - destruct a; [|cbn [length] in H1; lia]. destruct f2; reflexivity.
  - destruct f2 as [|f2]; [destruct a; [reflexivity|cbn [length] in H2; lia]|].
    cbn [pairwise_sum].
    destruct (Nat.ltb_spec (length a) 8); [reflexivity|].
    destruct (Nat.leb_spec (length a) 128) as [|Hlong]; [reflexivity|].
    destruct (halves_shorter (length a) Hlong) as [Hpos Hlt].
    f_equal; apply IH; rewrite ?length_firstn, ?length_skipn; lia.
Qed.

(** Fewer than eight elements are added from left to right. *)
Lemma pairwise_sum_short (fuel : nat) (a : list num) :
  (length a < 8)%nat -> pairwise_sum fuel a = fold_left n_add a n_zero.
Proof.
  intros H. apply Nat.ltb_lt in H.
  destruct fuel; cbn [pairwise_sum]; rewrite H; reflexivity.
Qed.

Section Closed.

Variable P : num -> Prop.
Hypothesis P_zero : P n_zero.
Hypothesis P_add : forall x y, P x -> P y -> P (x + y).

Lemma fold_left_closed (a : list num) :
  Forall P a -> forall acc, P acc -> P (fold_left n_add a acc).
Proof.
  induction 1 as [|c a Hc _ IH]; intros acc Hacc; cbn [fold_left]; auto.
Qed.

Lemma unrolled_sum_closed (n : nat) :
  forall (a : list num) (r0 r1 r2 r3 r4 r5 r6 r7 : num),
    length a <= n -> Forall P a ->
    P r0 -> P r1 -> P r2 -> P r3 -> P r4 -> P r5 -> P r6 -> P r7 ->
    P (unrolled_sum r0 r1 r2 r3 r4 r5 r6 r7 a).
Proof.
  induction n as [|n IH]; intros a r0 r1 r2 r3 r4 r5 r6 r7 Hn Ha H0 H1 H2 H3 H4 H5 H6 H7.
  - destruct a; [|cbn [length] in Hn; lia]. cbn. auto.
  - destruct a as [|c0 [|c1 [|c2 [|c3 [|c4 [|c5 [|c6 [|c7 rest]]]]]]]];
      try (cbn [unrolled_sum]; apply fold_left_closed; auto; fail).
    cbn [unrolled_sum].
    repeat match goal with
           | H : Forall P (_ :: _) |- _ => inversion H; subst; clear H
           end.
    apply IH; auto. cbn [length] in Hn. lia.
Qed.

Lemma pairwise_sum_closed (fuel : nat) :
  forall a : list num, Forall P a -> P (pairwise_sum fuel a).
Proof.
  induction fuel as [|fuel IH]; intros a Ha; cbn [pairwise_sum];
    (destruct (length a <? 8)%nat; [apply fold_left_closed; auto|]);
    (destruct (length a <=? 128)%nat;
     [destruct a as [|c0 [|c1 [|c2 [|c3 [|c4 [|c5 [|c6 [|c7 rest]]]]]]]]; auto;
      repeat match goal with
             | H : Forall P (_ :: _) |- _ => inversion H; subst; clear H
             end;
      apply (unrolled_sum_closed (length rest)); auto|]);
    auto.
  apply P_add; apply IH; [apply Forall_firstn_keeps|apply Forall_skipn_keeps]; exact Ha.
Qed.

(** What holds of [0.0] and of every element, and of a sum when it holds
    of its two terms, holds of [np.sum]. *)
Lemma np_sum_closed (a : list num) : Forall P a -> P (np_sum a).
Proof.
  intros Ha. unfold np_sum. apply P_add; [exact P_zero|].
  apply pairwise_sum_closed. exact Ha.
Qed.

End Closed.

End SumFacts.

(** * What the notebook does on inputs the text does not show

    The two statements of this section hold in any arithmetic, so in
    binary64 in particular. *)

Section NotebookClaims.

Context {num : Type} {A : Arith num}.
Local Open Scope num_scope.

(** A run that ends without an exception went through the first two
    cells. *)
Lemma notebook_Ok_cells (T1 T4 : pyval num) (k L : list num) (out : outputs num) :
  notebook T1 T4 k L = Ok out ->
  cell_AR k L = Ok (o_AR out) /\ cell_q T1 T4 (o_AR out) = Ok (o_q out).
Proof.
  unfold notebook. intros H.
  destruct (cell_AR k L) as [AR|e]; cbn [bind] in H; [|discriminate].
  destruct (cell_q T1 T4 AR) as [q|e] eqn:Hq; cbn [bind] in H; [|discriminate].
  destruct (cell_T2 T1 AR q) as [T2|e]; cbn [bind] in H; [|discriminate].
  destruct (cell_T3 T4 AR q) as [T3|e]; cbn [bind] in H; [|discriminate].
  destruct (cell_x L) as [x|e]; cbn [bind] in H; [|discriminate].
  injection H as <-. split; [reflexivity|exact Hq].
Qed.


(** C7 (as amended): the notebook validates nothing and raises no error of
    the specification's taxonomy.  When the two temperatures convert to
    [float], it raises [ZeroDivisionError] exactly when a conductivity is
    zero at an index both lists have; [IndexError] exactly when there is
    no such zero and the thickness list is shorter than the conductivity
    list or there are fewer than three layers; never [OverflowError]; and
    it returns, with the closed form, exactly when there is no such zero
    and [3 <= len(k) <= len(L)].  Signs play no part: a negative
    conductivity or a non-positive total resistance raises nothing. *)
Theorem notebook_errors (T1 T4 : pyval num) (k L : list num) (d t1 t4 : num) :
  float_diff T1 T4 = Ok d ->
  py_float T1 = Ok t1 ->
  py_float T4 = Ok t4 ->
  (notebook T1 T4 k L = Raise ZeroDivisionError
   <-> existsb n_eq0 (firstn (length L) k) = true) /\
  (notebook T1 T4 k L = Raise IndexError
   <-> existsb n_eq0 (firstn (length L) k) = false
       /\ (length L < length k \/ length k < 3)%nat) /\
  notebook T1 T4 k L <> Raise OverflowError /\
  (notebook T1 T4 k L = Ok (closed_form d t1 t4 T1 T4 k L)
   <-> existsb n_eq0 (firstn (length L) k) = false
       /\ (3 <= length k <= length L)%nat) /\
  (forall out, notebook T1 T4 k L = Ok out -> out = closed_form d t1 t4 T1 T4 k L).
Proof.
  intros Hd H1 H4. rewrite (notebook_cases T1 T4 k L d t1 t4 Hd H1 H4).
  destruct (existsb n_eq0 (firstn (length L) k)).
  - repeat split; try discriminate; try reflexivity.
    + intros [Hf _]. discriminate.
    + intros [Hf _]. discriminate.
  - destruct (Nat.ltb_spec (length L) (length k)) as [Hlt|Hge];
      destruct (Nat.ltb_spec (length k) 3) as [Hlt3|Hge3]; cbn [orb];
      repeat split; try discriminate; try reflexivity; try lia;
      try (intros [_ Hc]; lia);
      try (intros out Hout; congruence).
Qed.

(** C9 (as amended): the loop runs over the indices of [k] only.  When no
    conductivity is zero at an index both lists have: if [L] is at least
    as long as [k], the loop returns one quotient for each index of [k],
    the same list as on [L] cut to the length of [k] (the further
    thicknesses are never read); if [L] is shorter than [k], the loop
    raises [IndexError]. *)
Theorem loop_on_mismatched_lengths (k L : list num) :
  Forall (fun ki => n_eq0 ki = false) (firstn (length L) k) ->
  ((length k <= length L)%nat ->
   cell_AR k L = Ok (quotients k L) /\
   cell_AR k (firstn (length k) L) = cell_AR k L /\
   length (quotients k L) = length k) /\
  ((length L < length k)%nat -> cell_AR k L = Raise IndexError).
Proof.
  intros Hnz. apply no_zero_firstn in Hnz. split.
  - intros Hle.
    assert (Hcell : cell_AR k L = Ok (quotients k L)).
    { rewrite cell_AR_cases, Hnz.
      destruct (Nat.ltb_spec (length L) (length k)); [lia|reflexivity]. }
    split; [exact Hcell|]. split; [|apply quotients_length; exact Hle].
    rewrite Hcell, cell_AR_cases.
    rewrite length_firstn, Nat.min_l by exact Hle.
    rewrite firstn_all2 in Hnz by exact Hle.
    rewrite firstn_all, Hnz, Nat.ltb_irrefl, quotients_firstn. reflexivity.
  - intros Hlt. rewrite cell_AR_cases, Hnz.
    destruct (Nat.ltb_spec (length L) (length k)); [reflexivity|lia].
Qed.

End NotebookClaims.

(** * The notebook in binary64 *)

Section Binary64Facts.

Local Open Scope float_scope.

(** A positive binary64 value is not zero: Python's [/] accepts it. *)
Lemma positive64_nonzero (f : float) : positive64 f -> n_eq0 f = false.
Proof.
  unfold positive64. cbn [n_eq0 binary64]. rewrite ltb_spec, eqb_spec.
  replace (Prim2SF 0) with (S754_zero false) by reflexivity.
  destruct (Prim2SF f) as [s|s| |s m e]; try destruct s; cbn; congruence.
Qed.

(** C1: on the worked example ([k = [0.07, 0.7, 0.07]],
    [L = [0.03, 0.1, 0.03]], [T1 = 150], [T4 = 10]) the notebook runs to
    its end; the area-resistances are the binary64 values the notebook
    prints, each within 0.000005 of 0.42857, 0.14286 and 0.42857; their sum
    is within 1e-9 of 1.0; the flux is within 1e-9 of 140.0 (its binary64
    value is 140.00000000000003, which numpy's 12-digit [str] prints as
    140.0); and [T2] and [T3] are 90.0 and 70.0. *)
Theorem worked_example :
  exists out,
    notebook T1_example T4_example k_example L_example = Ok out /\
    o_AR out = [0.4285714285714285; 0.14285714285714288; 0.4285714285714285] /\
    within (5 # 1000000) (42857 # 100000) (nth 0 (o_AR out) 0) = true /\
    within (5 # 1000000) (14286 # 100000) (nth 1 (o_AR out) 0) = true /\
    within (5 # 1000000) (42857 # 100000) (nth 2 (o_AR out) 0) = true /\
    within (1 # 1000000000) 1 (np_sum (o_AR out)) = true /\
    o_q out = 140.00000000000003 /\
    within (1 # 1000000000) 140 (o_q out) = true /\
    o_T2 out = 90 /\
    o_T3 out = 70 /\
    o_T out = [PyInt 150; PyFloat 90; PyFloat 70; PyInt 10].
Proof.
  eexists. split; [vm_compute; reflexivity|].
  repeat split; vm_compute; reflexivity.
Qed.

(** On the worked example the conversions succeed and the notebook runs to
    its end. *)
Lemma notebook_errors_witness :
  float_diff T1_example T4_example = Ok 140 /\
  py_float T1_example = Ok 150 /\
  py_float T4_example = Ok 10 /\
  notebook T1_example T4_example k_example L_example
  = Ok (closed_form 140 150 10 T1_example T4_example k_example L_example).
Proof.
  assert (Hd : float_diff T1_example T4_example = Ok 140) by reflexivity.
  assert (H1 : py_float T1_example = Ok 150) by reflexivity.
  assert (H4 : py_float T4_example = Ok 10) by reflexivity.
  split; [exact Hd|]. split; [exact H1|]. split; [exact H4|].
  apply (notebook_errors T1_example T4_example k_example L_example 140 150 10 Hd H1 H4).
  split; [reflexivity|]. cbn. lia.
Defined.

(** The conductivities of the worked example with a fourth thickness, and
    with two thicknesses only. *)
Lemma loop_on_mismatched_lengths_witness :
  Forall (fun ki => n_eq0 ki = false)
    (firstn (length [0.03; 0.1; 0.03; 0.5]) k_example) /\
  cell_AR k_example [0.03; 0.1; 0.03; 0.5] = Ok (quotients k_example L_example) /\
  Forall (fun ki => n_eq0 ki = false) (firstn (length [0.03; 0.1]) k_example) /\
  cell_AR k_example [0.03; 0.1] = Raise IndexError.
Proof.
  assert (Hlong : Forall (fun ki : float => n_eq0 ki = false)
                    (firstn (length [0.03; 0.1; 0.03; 0.5]) k_example))
    by (repeat constructor).
  assert (Hshort : Forall (fun ki : float => n_eq0 ki = false)
                     (firstn (length [0.03; 0.1]) k_example))
    by (repeat constructor).
  split; [exact Hlong|]. split; [|split; [exact Hshort|]].
  - apply (proj1 (loop_on_mismatched_lengths k_example [0.03; 0.1; 0.03; 0.5] Hlong)).
    cbn. lia.
  - apply (proj2 (loop_on_mismatched_lengths k_example [0.03; 0.1] Hshort)).
    cbn. lia.
Defined.

(** C3, where it fails in binary64: the quotient is rounded, so a positive
    difference over a positive resistance can be the flux 0.0.  With
    [float] temperatures the quotient underflows; with the [int]
    temperatures of the example the total resistance overflows to
    infinity. *)
Lemma flux_sign_counterexample :
  (exists out,
     notebook (PyFloat 1e-200) (PyFloat 0) [1e-200; 1; 1] [1; 1; 1] = Ok out /\
     positive64 (np_sum (o_AR out)) /\
     (0 <? 1e-200) = true /\
     o_q out = 0 /\
     ~ positive64 (o_q out)) /\
  (exists out,
     notebook T1_example T4_example [1e-200; 1; 1] [1e200; 1; 1] = Ok out /\
     positive64 (np_sum (o_AR out)) /\
     o_q out = 0 /\
     ~ positive64 (o_q out)).
Proof.
  split; (eexists; split; [vm_compute; reflexivity|]);
    repeat split; try (vm_compute; reflexivity); vm_compute; discriminate.
Qed.

(** C4, where it fails in binary64: between 1 and -2, through three layers
    of area-resistance 0.1, the interface that is at 0 in exact arithmetic
    comes out as 1.1102230246251565e-16 from the first boundary and as
    its opposite from the last, which no relative tolerance relates. *)
Lemma forward_backward_counterexample :
  exists out,
    notebook (PyInt 1) (PyInt (-2)) [1; 1; 1] [0.1; 0.1; 0.1] = Ok out /\
    Forall positive64 (o_AR out) /\
    forward_temps (o_q out) 1 (o_AR out)
    = [1; 1.1102230246251565e-16; -0.99999999999999978; -1.9999999999999996] /\
    backward_temps (o_q out) (o_AR out) (-2)
    = [0.99999999999999978; -1.1102230246251565e-16; -1; -2] /\
    isclose (1 # 1000000000)
      (nth 1 (forward_temps (o_q out) 1 (o_AR out)) 0)
      (nth 1 (backward_temps (o_q out) (o_AR out) (-2)) 0) = false.
Proof.
  eexists. split; [vm_compute; reflexivity|].
  split; [repeat constructor|].
  repeat split; vm_compute; reflexivity.
Qed.

(** C5, where it fails: in binary64 on the worked example itself, where the
    middle layer gives 139.99999999999997 and not the flux
    140.00000000000003; and, rounding apart, on four layers, where the
    notebook's [T2] and [T3] are not the two faces of the second layer. *)
Lemma layer_flux_counterexample :
  (exists out,
     notebook T1_example T4_example k_example L_example = Ok out /\
     (o_T2 out - o_T3 out) / nth 1 (o_AR out) 0 = 139.99999999999997 /\
     o_q out = 140.00000000000003 /\
     ((o_T2 out - o_T3 out) / nth 1 (o_AR out) 0 =? o_q out) = false) /\
  (exists out,
     notebook (PyInt 4) (PyInt 0) [1; 1; 1; 1] [1; 1; 1; 1] = Ok out /\
     (o_T2 out - o_T3 out) / nth 1 (o_AR out) 0 = 2 /\
     o_q out = 1).
Proof.
  split; eexists; (split; [vm_compute; reflexivity|]);
    repeat split; vm_compute; reflexivity.
Qed.


(** C7, where it fails: a negative conductivity, a negative total
    resistance and a zero total resistance (numpy's quotient is then an
    infinity) raise nothing; a zero conductivity raises
    [ZeroDivisionError]; no layers, and a thickness list shorter than the
    conductivity list, raise [IndexError]; a longer one raises nothing. *)
Lemma validation_counterexample :
  (exists out,
     notebook T1_example T4_example [-0.07; 0.7; 0.07] L_example = Ok out /\
     o_q out = 979.99999999999966) /\
  (exists out,
     notebook T1_example T4_example [-1; -1; -1] [1; 1; 1] = Ok out /\
     np_sum (o_AR out) = -3) /\
  (exists out,
     notebook T1_example T4_example [1; -1; 1] [1; 2; 1] = Ok out /\
     np_sum (o_AR out) = 0 /\
     o_q out = infinity) /\
  notebook T1_example T4_example [0.07; 0; 0.07] L_example = Raise ZeroDivisionError /\
  notebook T1_example T4_example [] [] = Raise IndexError /\
  notebook T1_example T4_example k_example [0.03; 0.1] = Raise IndexError /\
  (exists out,
     notebook T1_example T4_example k_example [0.03; 0.1; 0.03; 0.5] = Ok out).
Proof.
  repeat split; try (vm_compute; reflexivity);
    eexists; repeat split; vm_compute; reflexivity.
Qed.

(** C9, where it fails: a zero conductivity raises [ZeroDivisionError]
    with a longer thickness list, and before the [IndexError] of a shorter
    one. *)
Lemma mismatch_counterexample :
  cell_AR [0] [1; 2] = Raise ZeroDivisionError /\
  cell_AR [0; 1] [1] = Raise ZeroDivisionError.
Proof. split; vm_compute; reflexivity. Qed.

(** C10, where it fails in binary64: two outer layers of area-resistance
    1e-20 change the temperature by less than rounding keeps, so [T2] is
    [T1] and [T3] is [T4]. *)
Lemma decreasing_counterexample :
  exists out,
    notebook T1_example T4_example [1e20; 1; 1e20] [1; 1; 1] = Ok out /\
    Forall positive64 (o_AR out) /\
    o_T out = [PyInt 150; PyFloat 150; PyFloat 10; PyInt 10] /\
    (o_T2 out <? 150) = false /\
    (10 <? o_T3 out) = false.
Proof.
  eexists. split; [vm_compute; reflexivity|].
  split; [repeat constructor|].
  repeat split; vm_compute; reflexivity.
Qed.

(** On the worked example the properties that fail in general do hold in
    binary64: the temperatures decrease strictly, the two iterations agree
    within 1e-9 (relative) at the four interfaces, and the flux across each
    layer is within 1e-9 (relative) of the flux computed. *)
Lemma worked_example_in_binary64 :
  exists out,
    notebook T1_example T4_example k_example L_example = Ok out /\
    (o_T2 out <? 150) = true /\ (o_T3 out <? o_T2 out) = true /\
    (10 <? o_T3 out) = true /\
    forallb (fun p => isclose (1 # 1000000000) (fst p) (snd p))
      (combine (forward_temps (o_q out) 150 (o_AR out))
               (backward_temps (o_q out) (o_AR out) 10)) = true /\
    forallb (isclose (1 # 1000000000) (o_q out))
      [(150 - o_T2 out) / nth 0 (o_AR out) 0;
       (o_T2 out - o_T3 out) / nth 1 (o_AR out) 0;
       (o_T3 out - 10) / nth 2 (o_AR out) 0] = true.
Proof.
  eexists. split; [vm_compute; reflexivity|].
  repeat split; vm_compute; reflexivity.
Qed.

End Binary64Facts.

(** * The notebook in exact arithmetic *)

Section ExactFacts.

Local Open Scope R_scope.

Lemma exact_py_float (v : pyval R) : py_float v = Ok (valueR v).
Proof. destruct v; reflexivity. Qed.

Lemma exact_float_diff (T1 T4 : pyval R) :
  float_diff T1 T4 = Ok (valueR T1 - valueR T4).
Proof.
  destruct T1 as [m|a], T4 as [n|b]; cbn; try reflexivity.
  rewrite minus_IZR. reflexivity.
Qed.

Lemma exact_eq0_false (r : R) : r <> 0 -> n_eq0 r = false.
Proof.
  intros H. cbn. destruct (Req_dec_T r 0) as [E|_]; [contradiction|reflexivity].
Qed.

Lemma exact_no_zero (k : list R) :
  Forall positiveR k -> Forall (fun r => n_eq0 r = false) k.
Proof.
  intros H. eapply Forall_impl; [|exact H].
  intros r Hr. apply exact_eq0_false. unfold positiveR in Hr. lra.
Qed.

Lemma exact_fold_left_shift (l : list R) (a : R) :
  fold_left Rplus l a = a + fold_left Rplus l 0.
Proof.
  revert a. induction l as [|r l IH]; intros a; simpl.
  - lra.
  - rewrite (IH (a + r)), (IH (0 + r)). lra.
Qed.

Lemma exact_unrolled_sum (n : nat) :
  forall (a : list R) (r0 r1 r2 r3 r4 r5 r6 r7 : R),
    (length a <= n)%nat ->
    unrolled_sum r0 r1 r2 r3 r4 r5 r6 r7 a
    = r0 + r1 + r2 + r3 + r4 + r5 + r6 + r7 + fold_left Rplus a 0.
Proof.
  induction n as [|n IH]; intros a r0 r1 r2 r3 r4 r5 r6 r7 Hn.
  - destruct a; [|cbn [length] in Hn; lia]. cbn. lra.
  - destruct a as [|c0 [|c1 [|c2 [|c3 [|c4 [|c5 [|c6 [|c7 rest]]]]]]]];
      try (cbn [unrolled_sum n_add exact]; rewrite exact_fold_left_shift; lra).
    cbn [unrolled_sum]. rewrite IH by (cbn [length] in Hn; lia).
    cbn [fold_left n_add exact]. rewrite (exact_fold_left_shift rest (_ + c7)). lra.
Qed.

Lemma exact_pairwise_sum (fuel : nat) :
  forall a : list R,
    (length a <= fuel)%nat -> pairwise_sum fuel a = fold_left Rplus a 0.
Proof.
  induction fuel as [|fuel IH]; intros a Hfuel.
  - destruct a; [reflexivity|cbn [length] in Hfuel; lia].
  - cbn [pairwise_sum].
    destruct (Nat.ltb_spec (length a) 8); [reflexivity|].
    destruct (Nat.leb_spec (length a) 128) as [|Hlong].
    + destruct a as [|c0 [|c1 [|c2 [|c3 [|c4 [|c5 [|c6 [|c7 rest]]]]]]]];
        cbn [length] in *; try lia.
      rewrite (exact_unrolled_sum (length rest)) by lia.
      cbn [fold_left]. rewrite (exact_fold_left_shift rest (_ + c7)). lra.
    + destruct (halves_shorter (length a) Hlong) as [Hpos Hlt].
      rewrite !IH by (rewrite ?length_firstn, ?length_skipn; lia).
      set (n2 := (length a / 2 - (length a / 2) mod 8)%nat).
      replace (fold_left Rplus a 0)
        with (fold_left Rplus (firstn n2 a ++ skipn n2 a) 0)
        by (rewrite firstn_skipn; reflexivity).
      rewrite fold_left_app.
      rewrite (exact_fold_left_shift (skipn n2 a) (fold_left _ _ _)).
      reflexivity.
Qed.

(** In exact arithmetic the order numpy adds in does not show: [np.sum] is
    the sum of the elements. *)
Lemma exact_np_sum (a : list R) : np_sum a = fold_left Rplus a 0.
Proof.
  unfold np_sum. rewrite exact_pairwise_sum by lia. cbn [n_add n_zero exact]. lra.
Qed.

Lemma exact_np_sum_nil : np_sum (@nil R) = 0.
Proof. rewrite exact_np_sum. reflexivity. Qed.

Lemma exact_np_sum_cons (r : R) (l : list R) : np_sum (r :: l) = r + np_sum l.
Proof.
  rewrite !exact_np_sum. cbn [fold_left].
  rewrite exact_fold_left_shift. lra.
Qed.

Lemma exact_np_sum_nonneg (l : list R) : Forall positiveR l -> 0 <= np_sum l.
Proof.
  induction 1 as [|r l Hr _ IH].
  - rewrite exact_np_sum_nil. lra.
  - rewrite exact_np_sum_cons. unfold positiveR in Hr. lra.
Qed.

Lemma exact_np_sum_pos (l : list R) :
  l <> [] -> Forall positiveR l -> 0 < np_sum l.
Proof.
  intros Hne Hl. destruct Hl as [|r l Hr Hl]; [contradiction|].
  rewrite exact_np_sum_cons. pose proof (exact_np_sum_nonneg l Hl).
  unfold positiveR in Hr. lra.
Qed.

Lemma exact_quotients_pos (k L : list R) :
  Forall positiveR k -> Forall positiveR L -> Forall positiveR (quotients k L).
Proof.
  intros Hk. revert L. induction Hk as [|ki k Hki _ IH]; intros L HL.
  - constructor.
  - destruct HL as [|Li L HLi HL]; [constructor|].
    cbn [quotients]. constructor; [|apply IH; exact HL].
    cbn. apply Rdiv_lt_0_compat; assumption.
Qed.

(** With positive conductivities, three layers or more and a thickness for
    each, the notebook runs to its end. *)
Lemma exact_notebook_ok (T1 T4 : pyval R) (k L : list R) :
  (3 <= length k)%nat -> (length k <= length L)%nat ->
  Forall positiveR k ->
  notebook T1 T4 k L
  = Ok (closed_form (valueR T1 - valueR T4) (valueR T1) (valueR T4) T1 T4 k L).
Proof.
  intros H3 Hle Hk.
  rewrite (notebook_cases T1 T4 k L _ _ _
             (exact_float_diff T1 T4) (exact_py_float T1) (exact_py_float T4)).
  rewrite (no_zero_prefix k _ (exact_no_zero k Hk)).
  destruct (Nat.ltb_spec (length L) (length k)); [lia|].
  destruct (Nat.ltb_spec (length k) 3); [lia|]. reflexivity.
Qed.

Lemma exact_notebook_Ok_inv (T1 T4 : pyval R) (k L : list R) (out : outputs R) :
  notebook T1 T4 k L = Ok out ->
  (3 <= length k)%nat /\ (length k <= length L)%nat /\
  out = closed_form (valueR T1 - valueR T4) (valueR T1) (valueR T4) T1 T4 k L.
Proof.
  rewrite (notebook_cases T1 T4 k L _ _ _
             (exact_float_diff T1 T4) (exact_py_float T1) (exact_py_float T4)).
  destruct (existsb n_eq0 (firstn (length L) k)); [discriminate|].
  destruct (Nat.ltb_spec (length L) (length k)); [discriminate|].
  destruct (Nat.ltb_spec (length k) 3); [discriminate|].
  cbn [orb]. intros Heq. injection Heq as <-. repeat split; assumption.
Qed.

(** The iteration from the first boundary ends where the one from the last
    boundary starts, and the two pass through the same temperatures. *)
Lemma exact_backward_forward (q : R) (AR : list R) :
  forall T_first,
    backward_temps q AR (T_first - q * np_sum AR) = forward_temps q T_first AR.
Proof.
  induction AR as [|r rest IH]; intros T_first.
  - cbn [backward_temps forward_temps]. rewrite exact_np_sum_nil. f_equal. lra.
  - cbn [backward_temps forward_temps]. rewrite exact_np_sum_cons.
    replace (T_first - q * (r + np_sum rest))
      with (fwd_step q T_first r - q * np_sum rest)
      by (unfold fwd_step; cbn; lra).
    rewrite IH.
    assert (Hhd : forall T l d, hd d (forward_temps q T l) = T)
      by (intros T [|? ?] d; reflexivity).
    rewrite Hhd. f_equal. unfold bwd_step, fwd_step. cbn. lra.
Qed.

Lemma exact_example_positive : Forall positiveR k_exact /\ Forall positiveR L_exact.
Proof. split; repeat constructor; unfold positiveR; lra. Qed.

Lemma exact_example_runs :
  notebook T1_exact T4_exact k_exact L_exact
  = Ok (closed_form (150 - 10) 150 10 T1_exact T4_exact k_exact L_exact).
Proof.
  apply (exact_notebook_ok T1_exact T4_exact k_exact L_exact).
  - cbn. lia.
  - cbn. lia.
  - apply exact_example_positive.
Qed.

(** C4 (as amended): in exact arithmetic, for every non-empty sequence of
    layers with positive thicknesses and conductivities and any boundary
    temperatures, the temperatures iterated forward from [T_first] and
    those iterated backward from [T_last] are equal; on three layers they
    are the notebook's [T1, T2, T3, T4]. *)
Theorem exact_forward_backward (T1 T4 : pyval R) (k L : list R) :
  k <> [] -> length L = length k -> Forall positiveR k -> Forall positiveR L ->
  exists AR q,
    cell_AR k L = Ok AR /\
    cell_q T1 T4 AR = Ok q /\
    forward_temps q (valueR T1) AR = backward_temps q AR (valueR T4) /\
    (length k = 3%nat ->
     exists out,
       notebook T1 T4 k L = Ok out /\ o_AR out = AR /\ o_q out = q /\
       forward_temps q (valueR T1) AR
       = [valueR T1; o_T2 out; o_T3 out; valueR T4]).
Proof.
  intros Hne Hlen Hk HL.
  pose proof (exact_quotients_pos k L Hk HL) as HAR.
  assert (Hsum : 0 < np_sum (quotients k L)).
  { apply exact_np_sum_pos; [|exact HAR].
    destruct k as [|k0 k]; [contradiction|]. destruct L as [|l0 L]; discriminate. }
  exists (quotients k L), ((valueR T1 - valueR T4) / np_sum (quotients k L)).
  assert (Hback : valueR T4
                  = valueR T1 - (valueR T1 - valueR T4) / np_sum (quotients k L)
                                * np_sum (quotients k L)) by (field; lra).
  assert (Hfb : forward_temps ((valueR T1 - valueR T4) / np_sum (quotients k L))
                  (valueR T1) (quotients k L)
                = backward_temps ((valueR T1 - valueR T4) / np_sum (quotients k L))
                    (quotients k L) (valueR T4)).
  { rewrite Hback at 3. symmetry. apply exact_backward_forward. }
  split; [|split; [|split]].
  - rewrite cell_AR_cases, (no_zero_prefix k _ (exact_no_zero k Hk)), Hlen, Nat.ltb_irrefl.
    reflexivity.
  - unfold cell_q. rewrite exact_float_diff. reflexivity.
  - exact Hfb.
  - intros H3. eexists. split; [apply exact_notebook_ok; [lia|lia|exact Hk]|].
    split; [reflexivity|]. split; [reflexivity|].
    rewrite Hfb. cbn [closed_form o_T2 o_T3 n_div exact].
    set (q := (valueR T1 - valueR T4) / np_sum (quotients k L)) in *.
    pose proof (quotients_length k L ltac:(lia)) as Hq.
    destruct (quotients k L) as [|a0 [|a1 [|a2 [|a3 rest]]]]; cbn [length] in Hq; try lia.
    cbn [backward_temps hd nth]. unfold bwd_step.
    rewrite !exact_np_sum_cons, exact_np_sum_nil in Hback.
    cbn [n_add n_mul n_neg exact].
    repeat (apply f_equal2; [lra|]). reflexivity.
Qed.

(** The worked example, in exact arithmetic, meets the hypotheses of
    [exact_forward_backward]. *)
Lemma exact_forward_backward_witness :
  k_exact <> [] /\ length L_exact = length k_exact /\
  Forall positiveR k_exact /\ Forall positiveR L_exact /\
  exists AR q,
    cell_AR k_exact L_exact = Ok AR /\
    cell_q T1_exact T4_exact AR = Ok q /\
    forward_temps q (valueR T1_exact) AR = backward_temps q AR (valueR T4_exact) /\
    (length k_exact = 3%nat ->
     exists out,
       notebook T1_exact T4_exact k_exact L_exact = Ok out /\
       o_AR out = AR /\ o_q out = q /\
       forward_temps q (valueR T1_exact) AR
       = [valueR T1_exact; o_T2 out; o_T3 out; valueR T4_exact]).
Proof.
  assert (Hne : k_exact <> []) by discriminate.
  assert (Hlen : length L_exact = length k_exact) by reflexivity.
  split; [exact Hne|]. split; [exact Hlen|].
  split; [apply exact_example_positive|]. split; [apply exact_example_positive|].
  apply (exact_forward_backward T1_exact T4_exact k_exact L_exact Hne Hlen);
    apply exact_example_positive.
Defined.

(** C5 (as amended): in exact arithmetic, on three layers with positive
    thicknesses and conductivities, the flux across each layer of the
    computed profile, [(T_i - T_{i+1}) / AR_i], equals the flux [q] the
    notebook computes. *)
Theorem exact_flux_constant (T1 T4 : pyval R) (k L : list R) :
  length k = 3%nat -> length L = 3%nat -> Forall positiveR k -> Forall positiveR L ->
  exists out,
    notebook T1 T4 k L = Ok out /\
    (valueR T1 - o_T2 out) / nth 0 (o_AR out) 0 = o_q out /\
    (o_T2 out - o_T3 out) / nth 1 (o_AR out) 0 = o_q out /\
    (o_T3 out - valueR T4) / nth 2 (o_AR out) 0 = o_q out.
Proof.
  intros H3 HL3 Hk HL.
  eexists. split; [apply exact_notebook_ok; [lia|lia|exact Hk]|].
  pose proof (exact_quotients_pos k L Hk HL) as HAR.
  pose proof (quotients_length k L ltac:(lia)) as Hq.
  cbn [closed_form o_AR o_q o_T2 o_T3].
  destruct (quotients k L) as [|a0 [|a1 [|a2 [|a3 rest]]]]; cbn [length] in Hq; try lia.
  inversion HAR as [|? ? Ha0 HAR1]; subst.
  inversion HAR1 as [|? ? Ha1 HAR2]; subst.
  inversion HAR2 as [|? ? Ha2 _]; subst.
  unfold positiveR in *.
  rewrite !exact_np_sum_cons, exact_np_sum_nil.
  cbn [nth n_add n_mul n_neg n_div n_zero exact].
  repeat split; field; lra.
Qed.

(** The worked example, in exact arithmetic, meets the hypotheses of
    [exact_flux_constant]. *)
Lemma exact_flux_constant_witness :
  length k_exact = 3%nat /\ length L_exact = 3%nat /\
  Forall positiveR k_exact /\ Forall positiveR L_exact /\
  exists out,
    notebook T1_exact T4_exact k_exact L_exact = Ok out /\
    (valueR T1_exact - o_T2 out) / nth 0 (o_AR out) 0 = o_q out /\
    (o_T2 out - o_T3 out) / nth 1 (o_AR out) 0 = o_q out /\
    (o_T3 out - valueR T4_exact) / nth 2 (o_AR out) 0 = o_q out.
Proof.
  split; [reflexivity|]. split; [reflexivity|].
  split; [apply exact_example_positive|]. split; [apply exact_example_positive|].
  apply (exact_flux_constant T1_exact T4_exact k_exact L_exact);
    try reflexivity; apply exact_example_positive.
Defined.



(** C10 (as amended): in exact arithmetic, whenever the notebook runs to
    its end (three layers or more) with every area-resistance strictly
    positive and [T_first > T_last], the temperatures of the profile
    decrease strictly: [T1 > T2 > T3 > T4].  In binary64 they do so on the
    worked example. *)
Theorem temperatures_decreasing :
  (forall (T1 T4 : pyval R) (k L : list R) (out : outputs R),
      notebook T1 T4 k L = Ok out ->
      Forall positiveR (o_AR out) ->
      valueR T4 < valueR T1 ->
      decreasing (map valueR (o_T out))) /\
  (exists out,
      notebook T1_example T4_example k_example L_example = Ok out /\
      o_T out = [PyInt 150; PyFloat (o_T2 out); PyFloat (o_T3 out); PyInt 10] /\
      PrimFloat.ltb (o_T2 out) 150 = true /\
      PrimFloat.ltb (o_T3 out) (o_T2 out) = true /\
      PrimFloat.ltb 10 (o_T3 out) = true).
Proof.
  split.
  - intros T1 T4 k L out Hrun HAR Hlt.
    apply exact_notebook_Ok_inv in Hrun as (H3 & Hle & ->).
    unfold closed_form in *. cbn [o_AR o_T map valueR decreasing] in *.
    pose proof (quotients_length k L Hle) as Hq.
    destruct (quotients k L) as [|a0 [|a1 [|a2 rest]]]; cbn [length] in Hq; try lia.
    inversion HAR as [|? ? Ha0 HAR1]; subst.
    inversion HAR1 as [|? ? Ha1 HAR2]; subst.
    inversion HAR2 as [|? ? Ha2 HAR3]; subst.
    pose proof (exact_np_sum_nonneg rest HAR3) as Hrest.
    rewrite !exact_np_sum_cons. cbn [nth n_add n_mul n_neg n_div exact].
    unfold positiveR in *.
    set (S := a0 + (a1 + (a2 + np_sum rest))).
    assert (HS : 0 < S) by (unfold S; lra).
    set (d := valueR T1 - valueR T4) in *.
    assert (Hd : 0 < d) by (unfold d; lra).
    assert (Hqpos : 0 < d / S) by (apply Rdiv_lt_0_compat; assumption).
    assert (HqS : d / S * S = d) by (field; lra).
    set (q := d / S) in *.
    repeat split; unfold S, d in *; nra.
  - eexists. split; [vm_compute; reflexivity|].
    repeat split; vm_compute; reflexivity.
Qed.

(** The worked example, in exact arithmetic, runs to its end with positive
    area-resistances and [T4 < T1]. *)
Lemma temperatures_decreasing_witness :
  notebook T1_exact T4_exact k_exact L_exact
  = Ok (closed_form (150 - 10) 150 10 T1_exact T4_exact k_exact L_exact) /\
  Forall positiveR
    (o_AR (closed_form (150 - 10) 150 10 T1_exact T4_exact k_exact L_exact)) /\
  valueR T4_exact < valueR T1_exact /\
  decreasing
    (map valueR (o_T (closed_form (150 - 10) 150 10 T1_exact T4_exact k_exact L_exact))).
Proof.
  assert (HAR : Forall positiveR
                  (o_AR (closed_form (150 - 10) 150 10 T1_exact T4_exact k_exact L_exact)))
    by (apply exact_quotients_pos; apply exact_example_positive).
  assert (Hlt : valueR T4_exact < valueR T1_exact) by (cbn; lra).
  split; [exact exact_example_runs|]. split; [exact HAR|]. split; [exact Hlt|].
  exact (proj1 temperatures_decreasing T1_exact T4_exact k_exact L_exact _
           exact_example_runs HAR Hlt).
Defined.

End ExactFacts.

(** * Further properties of the cells *)

Section LoopProperties.

Context {num : Type} {A : Arith num}.
Local Open Scope num_scope.

Lemma no_zero_Forall (k : list num) :
  existsb n_eq0 k = false -> Forall (fun ki => n_eq0 ki = false) k.
Proof.
  induction k as [|ki k IH]; cbn [existsb]; intros H; constructor.
  - destruct (n_eq0 ki); [discriminate|reflexivity].
  - apply IH. destruct (n_eq0 ki); [discriminate|exact H].
Qed.

(** X1: when the loop returns a list, there was a thickness for every
    conductivity, no conductivity was zero, and the list holds one
    quotient [L[i]/k[i]] for each index of [k]. *)
Theorem loop_returns_only_on_good_layers (k L AR : list num) (d : num) :
  cell_AR k L = Ok AR ->
  (length k <= length L)%nat /\
  Forall (fun ki => n_eq0 ki = false) k /\
  length AR = length k /\
  (forall i, (i < length k)%nat -> nth i AR d = nth i L d / nth i k d).
Proof.
  rewrite cell_AR_cases.
  destruct (existsb n_eq0 (firstn (length L) k)) eqn:Hz; [discriminate|].
  destruct (Nat.ltb_spec (length L) (length k)) as [|Hle]; [discriminate|].
  intros H. injection H as <-.
  rewrite firstn_all2 in Hz by exact Hle.
  split; [exact Hle|]. split; [apply no_zero_Forall; exact Hz|].
  split; [apply quotients_length; exact Hle|].
  intros i Hi. apply quotients_nth; lia.
Qed.

Lemma AR_rec_app (k1 L1 k2 L2 : list num) :
  length k1 = length L1 ->
  AR_rec (k1 ++ k2) (L1 ++ L2)
  = (a <- AR_rec k1 L1 ;; b <- AR_rec k2 L2 ;; Ok (a ++ b)).
Proof.
  revert L1. induction k1 as [|ki k1 IH]; intros [|Li L1] Hlen;
    cbn [length] in Hlen; try discriminate.
  - cbn [app AR_rec bind]. destruct (AR_rec k2 L2); reflexivity.
  - cbn [app AR_rec]. destruct (py_truediv Li ki) as [r|e]; cbn [bind]; [|reflexivity].
    rewrite IH by congruence.
    destruct (AR_rec k1 L1) as [a|e]; cbn [bind]; [|reflexivity].
    destruct (AR_rec k2 L2) as [b|e]; reflexivity.
Qed.

(** X2: the area-resistances of a wall put together from two walls are
    those of the first followed by those of the second; when a part
    raises, the whole raises the same exception, the first part's if both
    do. *)
Theorem loop_on_joined_walls (k1 L1 k2 L2 : list num) :
  length k1 = length L1 ->
  cell_AR (k1 ++ k2) (L1 ++ L2)
  = (a <- cell_AR k1 L1 ;; b <- cell_AR k2 L2 ;; Ok (a ++ b)).
Proof.
  intros Hlen. rewrite !cell_AR_rec. apply AR_rec_app. exact Hlen.
Qed.

End LoopProperties.

Section ClosedForm.
Context {num : Type} {A : Arith num}.
Lemma notebook_Ok_closed (T1 T4 : pyval num) (k L : list num) (d t1 t4 : num)
  (out : outputs num) :
  float_diff T1 T4 = Ok d ->
  py_float T1 = Ok t1 ->
  py_float T4 = Ok t4 ->
  notebook T1 T4 k L = Ok out ->
  (3 <= length k <= length L)%nat /\ out = closed_form d t1 t4 T1 T4 k L.
Proof.
  intros Hd H1 H4. rewrite (notebook_cases T1 T4 k L d t1 t4 Hd H1 H4).
  destruct (existsb n_eq0 (firstn (length L) k)); [discriminate|].
  destruct (Nat.ltb_spec (length L) (length k)); [discriminate|].
  destruct (Nat.ltb_spec (length k) 3); [discriminate|].
  cbn [orb]. intros Heq. injection Heq as <-. split; [lia|reflexivity].
Qed.
End ClosedForm.

Section Binary64NoFlow.
Local Open Scope float_scope.

Lemma SFeqb_same_finite (s : bool) (m : positive) (e : Z) :
  SFeqb (S754_finite s m e) (S754_finite s m e) = true.
Proof.
  unfold SFeqb, SFcompare.
  rewrite Z.compare_refl, Pos.compare_cont_refl. destruct s; reflexivity.
Qed.

Lemma finite64_class (f : float) :
  finite64 f ->
  (exists s, Prim2SF f = S754_zero s) \/ (exists s m e, Prim2SF f = S754_finite s m e).
Proof.
  unfold finite64, is_finite, is_nan, is_infinity.
  rewrite !eqb_spec, abs_spec.
  replace (Prim2SF infinity) with (S754_infinity false) by reflexivity.
  destruct (Prim2SF f) as [s|s| |s m e]; cbn.
  - intros _. left. exists s. reflexivity.
  - destruct s; discriminate.
  - discriminate.
  - intros _. right. exists s, m, e. reflexivity.
Qed.

Lemma positive64_class (f : float) :
  positive64 f ->
  (exists m e, Prim2SF f = S754_finite false m e) \/ Prim2SF f = S754_infinity false.
Proof.
  unfold positive64. rewrite ltb_spec.
  replace (Prim2SF 0) with (S754_zero false) by reflexivity.
  destruct (Prim2SF f) as [s|s| |s m e]; try destruct s; cbn; try discriminate.
  - intros _. right. reflexivity.
  - intros _. left. exists m, e. reflexivity.
Qed.

Lemma float_diff_same (T : pyval float) (t : float) :
  py_float T = Ok t -> finite64 t ->
  exists d, float_diff T T = Ok d /\ Prim2SF d = S754_zero false.
Proof.
  intros Ht Hfin. destruct T as [n|f].
  - exists 0. split; [|reflexivity].
    unfold float_diff, py_sub. cbn [bind py_float]. rewrite Z.sub_diag. reflexivity.
  - cbn in Ht. injection Ht as ->. exists (t - t). split; [reflexivity|].
    rewrite sub_spec.
    destruct (finite64_class t Hfin) as [[s ->]|(s & m & e & ->)].
    + destruct s; reflexivity.
    + cbn. rewrite Z.sub_diag. reflexivity.
Qed.

(** X3: in binary64, between two equal boundary temperatures (both the
    same finite [float], or both the same [int]) no heat flows: whenever
    the notebook runs to its end with finite area-resistances of positive
    sum, the flux compares equal to 0.0 and [T2] and [T3] compare equal to
    the boundary temperature, with no rounding error. *)
Theorem no_flow_between_equal_temperatures
  (T : pyval float) (t : float) (k L : list float) (out : outputs float) :
  py_float T = Ok t ->
  finite64 t ->
  notebook T T k L = Ok out ->
  positive64 (np_sum (o_AR out)) ->
  Forall finite64 (o_AR out) ->
  (o_q out =? 0) = true /\ (o_T2 out =? t) = true /\ (o_T3 out =? t) = true.
Proof.
  intros Ht Hfin Hrun Hsum HAR.
  destruct (float_diff_same T t Ht Hfin) as (d & Hd & Hd0).
  destruct (notebook_Ok_closed T T k L d t t out Hd Ht Ht Hrun) as [[H3 Hle] ->].
  cbn [closed_form o_AR o_q o_T2 o_T3] in *.
  pose proof (quotients_length k L Hle) as Hlen.
  assert (Ha0 : finite64 (nth 0 (quotients k L) 0)).
  { apply (proj1 (Forall_nth _ _) HAR). lia. }
  assert (Ha2 : finite64 (nth 2 (quotients k L) 0)).
  { apply (proj1 (Forall_nth _ _) HAR). lia. }
  cbn [n_zero n_add n_mul n_div n_neg binary64].
  set (s := np_sum (quotients k L)) in *.
  set (a0 := nth 0 (quotients k L) 0) in *.
  set (a2 := nth 2 (quotients k L) 0) in *.
  assert (Hq : Prim2SF (d / s) = S754_zero false).
  { rewrite div_spec, Hd0.
    destruct (positive64_class s Hsum) as [(m & e & ->)| ->]; reflexivity. }
  rewrite !eqb_spec, !add_spec, !mul_spec, opp_spec, Hq.
  replace (Prim2SF 0) with (S754_zero false) by reflexivity.
  split; [reflexivity|].
  destruct (finite64_class a0 Ha0) as [[s0 ->]|(s0 & m0 & e0 & ->)];
    destruct (finite64_class a2 Ha2) as [[s2 ->]|(s2 & m2 & e2 & ->)];
    destruct (finite64_class t Hfin) as [[st ->]|(st & mt & et & ->)];
    repeat match goal with b : bool |- _ => destruct b end;
    cbn -[SFeqb]; rewrite ?SFeqb_same_finite; split; reflexivity.
Qed.

End Binary64NoFlow.

Section Binary64Nonneg.
Local Open Scope float_scope.

Lemma iter_pos_keeps {X : Type} (P : X -> Prop) (f : X -> X) :
  (forall x, P x -> P (f x)) ->
  forall (n : positive) (x : X), P x -> P (iter_pos f n x).
Proof.
  intros Hf. induction n as [n IH|n IH|]; intros x Hx; cbn [iter_pos].
  - apply IH, IH, Hf, Hx.
  - apply IH, IH, Hx.
  - apply Hf, Hx.
Qed.

Lemma shr_1_nonneg (mrs : shr_record) :
  (0 <= shr_m mrs)%Z -> (0 <= shr_m (shr_1 mrs))%Z.
Proof.
  destruct mrs as [m r s]. cbn [shr_m]. intros Hm.
  destruct m as [|[p|p|]|p]; cbn; lia.
Qed.

Lemma shr_fexp_nonneg (m e : Z) (l : location) :
  (0 <= m)%Z -> (0 <= shr_m (fst (shr_fexp prec emax m e l)))%Z.
Proof.
  intros Hm. unfold shr_fexp, shr.
  assert (H0 : (0 <= shr_m (shr_record_of_loc m l))%Z)
    by (destruct l as [|[]]; exact Hm).
  destruct (fexp prec emax (Zdigits2 m + e) - e)%Z as [|p|p]; cbn [fst];
    try exact H0.
  apply (iter_pos_keeps (fun mrs => (0 <= shr_m mrs)%Z)); [apply shr_1_nonneg|exact H0].
Qed.

Lemma round_nearest_even_nonneg (m : Z) (l : location) :
  (0 <= m)%Z -> (0 <= round_nearest_even m l)%Z.
Proof.
  intros Hm. destruct l as [|[]]; cbn; try destruct (Z.even m); lia.
Qed.

(** Rounding a non-negative mantissa gives a value of the sign asked for,
    never a NaN. *)
Lemma binary_round_aux_signed (s : bool) (m e : Z) (l : location) :
  (0 <= m)%Z -> signed s (binary_round_aux prec emax s m e l).
Proof.
  intros Hm. unfold binary_round_aux.
  pose proof (shr_fexp_nonneg m e l Hm) as H1.
  destruct (shr_fexp prec emax m e l) as [mrs' e']. cbn [fst] in H1.
  pose proof (shr_fexp_nonneg _ e' loc_Exact
                (round_nearest_even_nonneg _ (loc_of_shr_record mrs') H1)) as H2.
  destruct (shr_fexp prec emax _ e' loc_Exact) as [mrs'' e'']. cbn [fst] in H2.
  destruct (shr_m mrs'') as [|p|p]; [reflexivity| |lia].
  destruct (e'' <=? emax - prec)%Z; reflexivity.
Qed.

Lemma SFdiv_positive (mx my : positive) (ex ey : Z) :
  signed false (SF64div (S754_finite false mx ex) (S754_finite false my ey)).
Proof.
  unfold SF64div. cbn [SFdiv]. unfold SFdiv_core_binary.
  set (s := (ex - ey - _)%Z).
  set (m' := match s with Z.pos _ => Z.shiftl (Z.pos mx) s | 0%Z => Z.pos mx
                          | Z.neg _ => 0%Z end).
  assert (Hm' : (0 <= m')%Z).
  { unfold m'. destruct s; try lia. apply Z.shiftl_nonneg. lia. }
  pose proof (Z.div_pos m' (Z.pos my) Hm' ltac:(lia)) as Hq.
  unfold Z.div in Hq.
  destruct (Z.div_eucl m' (Z.pos my)) as [q r].
  apply (binary_round_aux_signed false). exact Hq.
Qed.

Lemma SFadd_signed (x y : spec_float) :
  signed false x -> signed false y -> signed false (SF64add x y).
Proof.
  unfold SF64add.
  destruct x as [sx|sx| |sx mx ex], y as [sy|sy| |sy my ey];
    cbn [signed]; intros Hx Hy; try contradiction; subst; try reflexivity.
  cbn [SFadd cond_Zopp Z.add binary_normalize]. unfold binary_round.
  destruct (shl_align _ _ _) as [mz ez].
  apply (binary_round_aux_signed false). lia.
Qed.

Lemma positive_finite_class (f : float) :
  positive64 f -> finite64 f -> exists m e, Prim2SF f = S754_finite false m e.
Proof.
  intros Hp Hf.
  destruct (positive64_class f Hp) as [H|H]; [exact H|].
  destruct (finite64_class f Hf) as [[s Hs]|(s & m & e & Hs)]; congruence.
Qed.

Lemma signed_nonneg (f : float) : signed false (Prim2SF f) -> nonneg64 f.
Proof.
  unfold nonneg64. rewrite leb_spec.
  replace (Prim2SF 0) with (S754_zero false) by reflexivity.
  destruct (Prim2SF f) as [s|s| |s m e]; cbn [signed]; intros H;
    try contradiction; subst; reflexivity.
Qed.

Lemma quotients_signed (k L : list float) :
  Forall (fun f => positive64 f /\ finite64 f) k ->
  Forall (fun f => positive64 f /\ finite64 f) L ->
  Forall (fun r => signed false (Prim2SF r)) (quotients k L).
Proof.
  intros Hk. revert L. induction Hk as [|ki k [Hkp Hkf] _ IH]; intros L HL.
  - constructor.
  - destruct HL as [|Li L [HLp HLf] HL]; [constructor|].
    cbn [quotients]. constructor; [|apply IH; exact HL].
    cbn [n_div binary64]. rewrite div_spec.
    destruct (positive_finite_class ki Hkp Hkf) as (mk & ek & ->).
    destruct (positive_finite_class Li HLp HLf) as (ml & el & ->).
    apply SFdiv_positive.
Qed.

(** A sum of values none of which is negative or a NaN is neither, in
    whatever order [np.sum] adds them. *)
Lemma np_sum_signed (l : list float) :
  Forall (fun r => signed false (Prim2SF r)) l -> signed false (Prim2SF (np_sum l)).
Proof.
  apply (np_sum_closed (fun r => signed false (Prim2SF r))).
  - reflexivity.
  - intros x y Hx Hy. cbn [n_add binary64]. rewrite add_spec.
    apply SFadd_signed; assumption.
Qed.

(** X4: in binary64, for layers whose thicknesses and conductivities are
    positive and finite, with a thickness for each conductivity, the loop
    returns area-resistances none of which is negative or a NaN, and
    neither is their sum: rounding can take a resistance or the total to
    0.0 or to infinity, and no further. *)
Theorem resistances_never_negative (k L : list float) :
  length L = length k ->
  Forall (fun f => positive64 f /\ finite64 f) k ->
  Forall (fun f => positive64 f /\ finite64 f) L ->
  exists AR,
    cell_AR k L = Ok AR /\
    Forall nonneg64 AR /\
    nonneg64 (np_sum AR).
Proof.
  intros Hlen Hk HL. exists (quotients k L).
  pose proof (quotients_signed k L Hk HL) as Hs.
  split; [|split].
  - rewrite cell_AR_cases, Hlen, Nat.ltb_irrefl.
    rewrite no_zero_prefix; [reflexivity|].
    eapply Forall_impl; [|exact Hk]. intros f [Hp _]. apply positive64_nonzero. exact Hp.
  - eapply Forall_impl; [|exact Hs]. intros r Hr. apply signed_nonneg. exact Hr.
  - apply signed_nonneg, np_sum_signed. exact Hs.
Qed.

End Binary64Nonneg.

Section Binary64Sign.
Local Open Scope float_scope.

Lemma binary_round_aux_opp (s : bool) (m e : Z) (l : location) :
  binary_round_aux prec emax (negb s) m e l
  = SFopp (binary_round_aux prec emax s m e l).
Proof.
  unfold binary_round_aux.
  destruct (shr_fexp prec emax m e l) as [mrs' e'].
  destruct (shr_fexp prec emax _ e' loc_Exact) as [mrs'' e''].
  destruct (shr_m mrs''); [reflexivity| |reflexivity].
  destruct (e'' <=? emax - prec)%Z; reflexivity.
Qed.

Lemma binary_normalize_opp (z e : Z) :
  z <> 0%Z ->
  binary_normalize prec emax (- z) e false
  = SFopp (binary_normalize prec emax z e false).
Proof.
  intros Hz. destruct z as [|m|m]; [contradiction| |];
    cbn [Z.opp binary_normalize]; unfold binary_round;
    destruct (shl_align m e _) as [mz ez].
  - apply (binary_round_aux_opp false).
  - apply (binary_round_aux_opp true).
Qed.

(** Exchanging the operands of a subtraction changes the sign of the
    result, unless it is the zero of two equal operands. *)
Lemma SFsub_swap (x y : spec_float) :
  SF64sub y x = SFopp (SF64sub x y)
  \/ (SF64sub x y = S754_zero false /\ SF64sub y x = S754_zero false).
Proof.
  unfold SF64sub.
  destruct x as [sx|sx| |sx mx ex], y as [sy|sy| |sy my ey];
    try (destruct sx, sy; cbn; auto; fail);
    try (destruct sx; cbn; auto; fail);
    try (destruct sy; cbn; auto; fail);
    try (cbn; auto; fail).
  cbn [SFsub]. rewrite (Z.min_comm ey ex).
  set (X := cond_Zopp sx (Z.pos (fst (shl_align mx ex (Z.min ex ey))))).
  set (Y := cond_Zopp sy (Z.pos (fst (shl_align my ey (Z.min ex ey))))).
  destruct (Z.eq_dec (X - Y) 0) as [E|E].
  - right. replace (Y - X)%Z with 0%Z by lia. rewrite E. split; reflexivity.
  - left. replace (Y - X)%Z with (- (X - Y))%Z by lia.
    apply binary_normalize_opp. exact E.
Qed.

Lemma SFdiv_opp_l (d z : spec_float) :
  SF64div (SFopp d) z = SFopp (SF64div d z).
Proof.
  unfold SF64div.
  destruct d as [sd|sd| |sd md ed], z as [sz|sz| |sz mz ez];
    try (destruct sd, sz; reflexivity); try (destruct sd; reflexivity);
    try reflexivity.
  cbn [SFopp SFdiv].
  destruct (SFdiv_core_binary prec emax (Z.pos md) ed (Z.pos mz) ez) as [[m e] l].
  replace (xorb (negb sd) sz) with (negb (xorb sd sz)) by (destruct sd, sz; reflexivity).
  apply binary_round_aux_opp.
Qed.

(** X5: in binary64, exchanging the two boundary temperatures changes
    only the sign of the flux: the two values of [q] are opposite, with no
    rounding difference, or both are NaN. *)
Theorem flux_changes_sign_with_the_temperatures (t1 t4 : float) (AR : list float) :
  exists q q',
    cell_q (PyFloat t1) (PyFloat t4) AR = Ok q /\
    cell_q (PyFloat t4) (PyFloat t1) AR = Ok q' /\
    ((q' =? - q) = true \/ (is_nan q = true /\ is_nan q' = true)).
Proof.
  exists ((t1 - t4) / np_sum AR), ((t4 - t1) / np_sum AR).
  split; [reflexivity|]. split; [reflexivity|].
  set (s := np_sum AR). unfold is_nan.
  rewrite !eqb_spec, opp_spec, !div_spec, !sub_spec.
  assert (Hopp : SF64div (SF64sub (Prim2SF t4) (Prim2SF t1)) (Prim2SF s)
                 = SFopp (SF64div (SF64sub (Prim2SF t1) (Prim2SF t4)) (Prim2SF s))
                 \/ (SF64sub (Prim2SF t1) (Prim2SF t4) = S754_zero false
                     /\ SF64sub (Prim2SF t4) (Prim2SF t1) = S754_zero false)).
  { destruct (SFsub_swap (Prim2SF t1) (Prim2SF t4)) as [->|H]; [left|right; exact H].
    apply SFdiv_opp_l. }
  destruct Hopp as [->|[-> ->]].
  - destruct (SF64div (SF64sub (Prim2SF t1) (Prim2SF t4)) (Prim2SF s))
      as [sq|sq| |sq mq eq] eqn:E.
    + left. reflexivity.
    + left. destruct sq; reflexivity.
    + right. split; reflexivity.
    + left. apply SFeqb_same_finite.
  - destruct (Prim2SF s) as [sz|sz| |sz mz ez]; cbn.
    + right. split; reflexivity.
    + left. destruct sz; reflexivity.
    + right. split; reflexivity.
    + left. destruct sz; reflexivity.
Qed.

End Binary64Sign.

(** ** The order of binary64 values and the sign of the flux *)

Section Binary64Order.
Local Open Scope Z_scope.

Lemma digits2_bounds (m : positive) :
  2 ^ (Z.pos (digits2_pos m) - 1) <= Z.pos m < 2 ^ Z.pos (digits2_pos m).
Proof.
  induction m as [m IH|m IH|]; cbn [digits2_pos].
  - rewrite Pos2Z.inj_succ.
    replace (Z.succ (Z.pos (digits2_pos m)) - 1) with (Z.succ (Z.pos (digits2_pos m) - 1)) by lia.
    rewrite !Z.pow_succ_r by lia. lia.
  - rewrite Pos2Z.inj_succ.
    replace (Z.succ (Z.pos (digits2_pos m)) - 1) with (Z.succ (Z.pos (digits2_pos m) - 1)) by lia.
    rewrite !Z.pow_succ_r by lia. lia.
  - cbn. lia.
Qed.

Lemma iter_xO_value (m d : positive) :
  Z.pos (Pos.iter xO m d) = Z.pos m * 2 ^ Z.pos d.
Proof.
  induction d as [|d IH] using Pos.peano_ind.
  - cbn. lia.
  - rewrite Pos.iter_succ, Pos2Z.inj_succ, Z.pow_succ_r by lia.
    rewrite Pos2Z.inj_xO, IH. lia.
Qed.

Lemma shl_align_value (m : positive) (e ez : Z) :
  ez <= e -> Z.pos (fst (shl_align m e ez)) = Z.pos m * 2 ^ (e - ez).
Proof.
  intros Hle. unfold shl_align.
  destruct (ez - e) as [|d|d] eqn:E; cbn [fst].
  - replace (e - ez) with 0 by lia. lia.
  - lia.
  - replace (e - ez) with (Z.pos d) by lia. apply iter_xO_value.
Qed.

(** Of two valid finite values, the one of smaller exponent is the
    smaller in magnitude. *)
Lemma canonical_order (m1 m2 : positive) (e1 e2 : Z) :
  bounded prec emax m1 e1 = true -> bounded prec emax m2 e2 = true ->
  e1 < e2 -> Z.pos m1 < Z.pos m2 * 2 ^ (e2 - e1).
Proof.
  unfold bounded, canonical_mantissa, fexp, SpecFloat.emin, prec, emax.
  intros H1 H2 Hlt.
  apply andb_prop in H1 as [H1 _]. apply andb_prop in H2 as [H2 _].
  apply Z.eqb_eq in H1, H2.
  pose proof (digits2_bounds m1) as [_ Hm1].
  pose proof (digits2_bounds m2) as [Hm2 _].
  assert (Hd2 : Z.pos (digits2_pos m2) = 53) by lia.
  assert (Hd1 : Z.pos (digits2_pos m1) <= 53) by lia.
  rewrite Hd2 in Hm2.
  assert (Hp1 : 2 ^ Z.pos (digits2_pos m1) <= 2 ^ 53)
    by (apply Z.pow_le_mono_r; lia).
  assert (Hp2 : 2 ^ 1 <= 2 ^ (e2 - e1)) by (apply Z.pow_le_mono_r; lia).
  change (2 ^ (53 - 1)) with 4503599627370496 in Hm2.
  change (2 ^ 53) with 9007199254740992 in Hp1.
  change (2 ^ 1) with 2 in Hp2.
  nia.
Qed.

(** The order of two valid finite values is the order of their mantissas
    once brought to the smaller exponent. *)
Lemma SFltb_finite (sx sy : bool) (mx my : positive) (ex ey : Z) :
  bounded prec emax mx ex = true -> bounded prec emax my ey = true ->
  (SFltb (S754_finite sy my ey) (S754_finite sx mx ex) = true
   <-> cond_Zopp sy (Z.pos (fst (shl_align my ey (Z.min ex ey))))
       < cond_Zopp sx (Z.pos (fst (shl_align mx ex (Z.min ex ey))))).
Proof.
  intros Hx Hy.
  rewrite !shl_align_value by lia.
  unfold SFltb, SFcompare.
  pose proof (Z.pow_pos_nonneg 2 (ex - Z.min ex ey) ltac:(lia) ltac:(lia)) as Hpx.
  pose proof (Z.pow_pos_nonneg 2 (ey - Z.min ex ey) ltac:(lia) ltac:(lia)) as Hpy.
  rewrite Pos.compare_cont_spec. cbn [Pos.switch_Eq].
  destruct (Z.compare_spec ey ex) as [E|E|E].
  - subst ey. rewrite Z.min_id, Z.sub_diag in *. change (2 ^ 0) with 1 in *.
    destruct (Pos.compare_spec my mx) as [Em|Em|Em]; destruct sx, sy; cbn [cond_Zopp CompOpp];
      split; intros H; try discriminate; try reflexivity; try lia.
  - pose proof (canonical_order my mx ey ex Hy Hx E) as Hord.
    rewrite Z.min_r in * by lia. rewrite Z.sub_diag in *. change (2 ^ 0) with 1 in *.
    destruct sx, sy; cbn [cond_Zopp Z.opp]; split; intros H; try discriminate; try reflexivity; try lia.
  - pose proof (canonical_order mx my ex ey Hx Hy E) as Hord.
    rewrite Z.min_l in * by lia. rewrite Z.sub_diag in *. change (2 ^ 0) with 1 in *.
    destruct sx, sy; cbn [cond_Zopp Z.opp]; split; intros H; try discriminate; try reflexivity; try lia.
Qed.

Lemma binary_round_signed (s : bool) (m : positive) (e : Z) :
  signed s (binary_round prec emax s m e).
Proof.
  unfold binary_round. destruct (shl_align _ _ _) as [mz ez].
  apply binary_round_aux_signed. lia.
Qed.

Lemma signed_true_not_spos (x : spec_float) : signed true x -> spos x -> False.
Proof. destruct x as [s|s| |s m e]; cbn; intros H; subst; auto. Qed.

(** The difference of two valid values is positive only if the first is
    the greater, and is not negative (nor a NaN) if it is. *)
Lemma SFsub_order (x y : spec_float) :
  valid_binary x = true -> valid_binary y = true ->
  (spos (SF64sub x y) -> SFltb y x = true) /\
  (SFltb y x = true -> signed false (SF64sub x y)).
Proof.
  unfold SF64sub. intros Vx Vy.
  destruct x as [sx|sx| |sx mx ex], y as [sy|sy| |sy my ey];
    try (destruct sx; try destruct sy; cbn; split; intros H;
         try contradiction; try discriminate; reflexivity);
    try (destruct sy; cbn; split; intros H;
         try contradiction; try discriminate; reflexivity);
    try (cbn; split; intros H; try contradiction; discriminate).
  unfold valid_binary in Vx, Vy. cbn [SpecFloat.valid_binary] in Vx, Vy.
  rewrite (SFltb_finite sx sy mx my ex ey Vx Vy).
  cbn [SFsub].
  set (X := cond_Zopp sx _). set (Y := cond_Zopp sy _).
  split.
  - destruct (X - Y) as [|p|p] eqn:E; cbn [binary_normalize]; intros H.
    + contradiction.
    + lia.
    + exfalso. exact (signed_true_not_spos _ (binary_round_signed true p _) H).
  - intros Hlt. destruct (X - Y) as [|p|p] eqn:E; try lia.
    cbn [binary_normalize]. apply binary_round_signed.
Qed.

End Binary64Order.

Section Binary64FluxSign.
Local Open Scope float_scope.

Lemma positive64_spos (f : float) : positive64 f <-> spos (Prim2SF f).
Proof.
  unfold positive64. rewrite ltb_spec.
  replace (Prim2SF 0) with (S754_zero false) by reflexivity.
  destruct (Prim2SF f) as [s|s| |s m e]; try destruct s; cbn;
    split; intros H; try discriminate; try contradiction; reflexivity.
Qed.

Lemma signed_opp (s : bool) (x : spec_float) :
  signed s x -> signed (negb s) (SFopp x).
Proof. destruct x; cbn; intros H; subst; auto. Qed.

Lemma SFldexp_signed (s : bool) (x : spec_float) (e : Z) :
  signed s x -> signed s (SFldexp prec emax x e).
Proof.
  destruct x as [s'|s'| |s' m' e']; cbn [signed SFldexp]; intros H; try exact H.
  subst. apply binary_round_signed.
Qed.

Lemma binary_normalize_nonneg (z e : Z) :
  (0 <= z)%Z -> signed false (binary_normalize prec emax z e false).
Proof.
  intros Hz. destruct z as [|p|p]; [reflexivity| |lia].
  cbn [binary_normalize]. apply binary_round_signed.
Qed.

(** The float built from a value of the specification keeps its sign. *)
Lemma SF2Prim_signed (s : bool) (x : spec_float) :
  signed s x -> signed s (Prim2SF (SF2Prim x)).
Proof.
  destruct x as [s'|s'| |s' m e]; cbn [signed]; intros H; try contradiction; subst.
  - destruct s; reflexivity.
  - destruct s; reflexivity.
  - unfold SF2Prim.
    assert (Hf : signed false
              (Prim2SF (Z.ldexp (of_uint63 (Uint63.of_Z (Z.pos m))) e))).
    { rewrite Z_ldexp_spec, of_uint63_spec. apply SFldexp_signed.
      apply binary_normalize_nonneg.
      apply Uint63.to_Z_bounded. }
    destruct s; [|exact Hf].
    rewrite opp_spec. apply (signed_opp false). exact Hf.
Qed.

(** [float(z)] is positive only for a positive [z], and is not negative
    for one. *)
Lemma float_of_Z_sign (z : Z) (d : float) :
  float_of_Z z = Ok d ->
  (spos (Prim2SF d) -> (0 < z)%Z) /\ ((0 < z)%Z -> signed false (Prim2SF d)).
Proof.
  unfold float_of_Z. destruct z as [|p|p].
  - cbn [binary_normalize]. intros H. injection H as <-.
    split; [intros H; exact (False_ind _ H)|lia].
  - cbn [binary_normalize].
    pose proof (binary_round_signed false p 0) as Hs.
    destruct (binary_round prec emax false p 0) as [s'|s'| |s' m e] eqn:E;
      intros H; try discriminate; injection H as <-;
      (split; [lia|intros _; exact (SF2Prim_signed false _ Hs)]).
  - cbn [binary_normalize].
    pose proof (binary_round_signed true p 0) as Hs.
    destruct (binary_round prec emax true p 0) as [s'|s'| |s' m e] eqn:E;
      intros H; try discriminate; injection H as <-;
      (split; [|lia]); intros Hp; exfalso;
      apply (signed_true_not_spos _ (SF2Prim_signed true _ Hs) Hp).
Qed.

Lemma SFdiv_finite_signed (sd : bool) (md ms : positive) (ed es : Z) :
  signed sd (SF64div (S754_finite sd md ed) (S754_finite false ms es)).
Proof.
  unfold SF64div. cbn [SFdiv]. unfold SFdiv_core_binary.
  set (s := (ed - es - _)%Z).
  set (m' := match s with Z.pos _ => Z.shiftl (Z.pos md) s | 0%Z => Z.pos md
                          | Z.neg _ => 0%Z end).
  assert (Hm' : (0 <= m')%Z).
  { unfold m'. destruct s; try lia. apply Z.shiftl_nonneg. lia. }
  pose proof (Z.div_pos m' (Z.pos ms) Hm' ltac:(lia)) as Hq.
  unfold Z.div in Hq.
  destruct (Z.div_eucl m' (Z.pos ms)) as [q r].
  rewrite xorb_false_r.
  apply binary_round_aux_signed. exact Hq.
Qed.

(** A quotient by a positive value is positive only if the dividend is,
    and is not negative (nor a NaN) if the dividend is not and the divisor
    is finite. *)
Lemma SFdiv_sign (d s : spec_float) :
  spos s ->
  (spos (SF64div d s) -> spos d) /\
  ((exists m e, s = S754_finite false m e) -> signed false d ->
   signed false (SF64div d s)).
Proof.
  intros Hs.
  destruct s as [ss|ss| |ss ms es]; try contradiction;
    destruct ss; try contradiction.
  - split.
    + destruct d as [sd|sd| |sd md ed]; cbn; intros H; try contradiction.
    + intros (m & e & H). discriminate.
  - split.
    + destruct d as [sd|sd| |sd md ed]; try (cbn; intros H; try contradiction; fail).
      * destruct sd; cbn; intros H; exact H.
      * intros H. destruct sd; [|exact I].
        exfalso. exact (signed_true_not_spos _ (SFdiv_finite_signed true md ms ed es) H).
    + intros _. destruct d as [sd|sd| |sd md ed]; cbn [signed]; intros H;
        try contradiction; subst; try reflexivity.
      apply SFdiv_finite_signed.
Qed.

Lemma float_diff_cases (T1 T4 : pyval float) (d : float) :
  float_diff T1 T4 = Ok d ->
  (exists m n, T1 = PyInt m /\ T4 = PyInt n /\ float_of_Z (m - n) = Ok d) \/
  ((forall m n, ~ (T1 = PyInt m /\ T4 = PyInt n)) /\
   exists t1 t4, py_float T1 = Ok t1 /\ py_float T4 = Ok t4 /\ d = t1 - t4).
Proof.
  unfold float_diff, py_sub.
  destruct T1 as [m|t1], T4 as [n|t4]; cbn [bind py_float n_of_int n_sub binary64].
  - intros H. left. exists m, n. auto.
  - destruct (float_of_Z m) as [f|e]; cbn [bind]; intros H; [|discriminate].
    injection H as <-. right. split; [intros ? ? [_ ?]; discriminate|].
    exists f, t4. auto.
  - destruct (float_of_Z n) as [f|e]; cbn [bind]; intros H; [|discriminate].
    injection H as <-. right. split; [intros ? ? [? _]; discriminate|].
    exists t1, f. auto.
  - intros H. injection H as <-. right. split; [intros ? ? [? _]; discriminate|].
    exists t1, t4. auto.
Qed.

(** The sign of the difference [float(T1 - T4)]. *)
Lemma float_diff_sign (T1 T4 : pyval float) (d : float) :
  float_diff T1 T4 = Ok d ->
  (spos (Prim2SF d) -> warmer64 T1 T4) /\
  (warmer64 T1 T4 -> signed false (Prim2SF d)).
Proof.
  intros Hd.
  destruct (float_diff_cases T1 T4 d Hd)
    as [(m & n & -> & -> & Hz)|(Hmix & t1 & t4 & H1 & H4 & ->)].
  - cbn [warmer64]. destruct (float_of_Z_sign _ _ Hz) as [Ha Hb].
    split; intros H; [apply Ha in H|apply Hb]; lia.
  - assert (Hw : warmer64 T1 T4 <-> PrimFloat.ltb t4 t1 = true).
    { unfold warmer64. destruct T1 as [m|f1], T4 as [n|f4];
        try (exfalso; apply (Hmix m n); split; reflexivity);
        rewrite H1, H4; reflexivity. }
    rewrite Hw, ltb_spec, sub_spec.
    apply SFsub_order; apply Prim2SF_valid.
Qed.

(** The flux cell in binary64, over a positive total. *)
Lemma cell_q_sign64 (T1 T4 : pyval float) (AR : list float) (d : float) :
  float_diff T1 T4 = Ok d ->
  positive64 (np_sum AR) ->
  cell_q T1 T4 AR = Ok (d / np_sum AR) /\
  (positive64 (d / np_sum AR) -> warmer64 T1 T4) /\
  (finite64 (np_sum AR) -> warmer64 T1 T4 -> nonneg64 (d / np_sum AR)).
Proof.
  intros Hd Hpos.
  split; [unfold cell_q; rewrite Hd; reflexivity|].
  destruct (float_diff_sign T1 T4 d Hd) as [Ha Hb].
  pose proof (proj1 (positive64_spos _) Hpos) as Hs.
  destruct (SFdiv_sign (Prim2SF d) (Prim2SF (np_sum AR)) Hs) as [Hc He].
  split.
  - intros Hq. apply Ha, Hc. rewrite <- div_spec. apply positive64_spos. exact Hq.
  - intros Hfin Hw. apply signed_nonneg. rewrite div_spec. apply He.
    + apply positive_finite_class; assumption.
    + apply Hb. exact Hw.
Qed.

End Binary64FluxSign.

Section Binary64Examples.
Local Open Scope float_scope.

(** The loop returns on the worked example. *)
Lemma loop_returns_only_on_good_layers_witness :
  cell_AR k_example L_example = Ok (quotients k_example L_example) /\
  (length k_example <= length L_example)%nat /\
  Forall (fun ki => n_eq0 ki = false) k_example /\
  length (quotients k_example L_example) = length k_example /\
  (forall i, (i < length k_example)%nat ->
     nth i (quotients k_example L_example) 0
     = nth i L_example 0 / nth i k_example 0).
Proof.
  assert (Hrun : cell_AR k_example L_example = Ok (quotients k_example L_example))
    by reflexivity.
  split; [exact Hrun|].
  exact (loop_returns_only_on_good_layers k_example L_example _ 0 Hrun).
Defined.

(** The wall of the worked example, put together from its first layer and
    its other two. *)
Lemma loop_on_joined_walls_witness :
  length [0.07] = length [0.03] /\
  cell_AR ([0.07] ++ [0.7; 0.07]) ([0.03] ++ [0.1; 0.03])
  = (a <- cell_AR [0.07] [0.03] ;; b <- cell_AR [0.7; 0.07] [0.1; 0.03] ;; Ok (a ++ b)).
Proof.
  assert (Hlen : length [0.07] = length [0.03]) by reflexivity.
  split; [exact Hlen|].
  exact (loop_on_joined_walls [0.07] [0.03] [0.7; 0.07] [0.1; 0.03] Hlen).
Defined.

(** The wall of the worked example between 150 and 150. *)
Lemma no_flow_between_equal_temperatures_witness :
  py_float T1_example = Ok 150 /\
  finite64 150 /\
  notebook T1_example T1_example k_example L_example
  = Ok (closed_form 0 150 150 T1_example T1_example k_example L_example) /\
  positive64 (np_sum (quotients k_example L_example)) /\
  Forall finite64 (quotients k_example L_example) /\
  (o_q (closed_form 0 150 150 T1_example T1_example k_example L_example) =? 0) = true /\
  (o_T2 (closed_form 0 150 150 T1_example T1_example k_example L_example) =? 150) = true /\
  (o_T3 (closed_form 0 150 150 T1_example T1_example k_example L_example) =? 150) = true.
Proof.
  assert (Ht : py_float T1_example = Ok 150) by reflexivity.
  assert (Hfin : finite64 150) by reflexivity.
  assert (Hrun : notebook T1_example T1_example k_example L_example
                 = Ok (closed_form 0 150 150 T1_example T1_example k_example L_example))
    by (vm_compute; reflexivity).
  assert (Hsum : positive64 (np_sum (quotients k_example L_example))) by reflexivity.
  assert (HAR : Forall finite64 (quotients k_example L_example))
    by (repeat constructor).
  split; [exact Ht|]. split; [exact Hfin|]. split; [exact Hrun|].
  split; [exact Hsum|]. split; [exact HAR|].
  exact (no_flow_between_equal_temperatures T1_example 150 k_example L_example _
           Ht Hfin Hrun Hsum HAR).
Defined.

(** The layers of the worked example are positive and finite. *)
Lemma resistances_never_negative_witness :
  length L_example = length k_example /\
  Forall (fun f => positive64 f /\ finite64 f) k_example /\
  Forall (fun f => positive64 f /\ finite64 f) L_example /\
  exists AR,
    cell_AR k_example L_example = Ok AR /\
    Forall nonneg64 AR /\
    nonneg64 (np_sum AR).
Proof.
  assert (Hlen : length L_example = length k_example) by reflexivity.
  assert (Hk : Forall (fun f => positive64 f /\ finite64 f) k_example)
    by (repeat constructor).
  assert (HL : Forall (fun f => positive64 f /\ finite64 f) L_example)
    by (repeat constructor).
  split; [exact Hlen|]. split; [exact Hk|]. split; [exact HL|].
  exact (resistances_never_negative k_example L_example Hlen Hk HL).
Defined.

(** From eight layers on, the order in which [np.sum] adds shows: the
    seven 1.0 go to accumulators of their own and are not lost against
    1e16, as they are one by one from left to right. *)
Lemma np_sum_eight_layers :
  np_sum [1e16; 1; 1; 1; 1; 1; 1; 1] = 10000000000000006 /\
  fold_left PrimFloat.add [1e16; 1; 1; 1; 1; 1; 1; 1] 0 = 1e16.
Proof. split; vm_compute; reflexivity. Qed.

End Binary64Examples.

Section ExactProperties.
Local Open Scope R_scope.

Lemma exact_notebook_cases (T1 T4 : pyval R) (k L : list R) :
  notebook T1 T4 k L =
  if existsb n_eq0 (firstn (length L) k) then Raise ZeroDivisionError
  else if ((length L <? length k) || (length k <? 3))%nat then Raise IndexError
  else Ok (closed_form (valueR T1 - valueR T4) (valueR T1) (valueR T4) T1 T4 k L).
Proof.
  apply notebook_cases;
    [apply exact_float_diff | apply exact_py_float | apply exact_py_float].
Qed.

Lemma exact_np_sum_scale (c : R) (l : list R) :
  np_sum (map (Rmult c) l) = c * np_sum l.
Proof.
  induction l as [|r l IH]; cbn [map].
  - rewrite exact_np_sum_nil. lra.
  - rewrite !exact_np_sum_cons, IH. lra.
Qed.

Lemma exact_quotients_scale (a b : R) (k L : list R) :
  quotients (map (Rmult a) k) (map (Rmult b) L)
  = map (Rmult (b / a)) (quotients k L).
Proof.
  revert L. induction k as [|ki k IH]; intros [|Li L]; cbn [map quotients];
    try reflexivity.
  rewrite IH. f_equal. cbn [n_div exact]. unfold Rdiv. rewrite Rinv_mult. ring.
Qed.

Lemma exact_zero_scale (a : R) (k : list R) (n : nat) :
  a <> 0 ->
  existsb n_eq0 (firstn n (map (Rmult a) k)) = existsb n_eq0 (firstn n k).
Proof.
  intros Ha. revert n. induction k as [|ki k IH]; intros [|n]; cbn [map firstn existsb];
    try reflexivity.
  rewrite IH. f_equal. cbn [n_eq0 exact].
  destruct (Req_dec_T (a * ki) 0) as [E|E], (Req_dec_T ki 0) as [E'|E'];
    try reflexivity.
  - apply Rmult_integral in E. destruct E; contradiction.
  - subst ki. rewrite Rmult_0_r in E. contradiction.
Qed.

(** X6: in exact arithmetic, adding one offset to both boundary
    temperatures (Celsius to kelvin) leaves the area-resistances, the flux
    and the positions as they are and adds the offset to [T2] and [T3]. *)
Theorem exact_temperature_offset
  (T1 T4 T1' T4' : pyval R) (c : R) (k L : list R) (out : outputs R) :
  valueR T1' = valueR T1 + c ->
  valueR T4' = valueR T4 + c ->
  notebook T1 T4 k L = Ok out ->
  exists out',
    notebook T1' T4' k L = Ok out' /\
    o_AR out' = o_AR out /\
    o_q out' = o_q out /\
    o_T2 out' = o_T2 out + c /\
    o_T3 out' = o_T3 out + c /\
    o_x out' = o_x out.
Proof.
  intros H1 H4. rewrite !exact_notebook_cases.
  destruct (existsb n_eq0 (firstn (length L) k)); [discriminate|].
  destruct ((length L <? length k) || (length k <? 3))%nat; [discriminate|].
  intros Heq. injection Heq as <-. eexists. split; [reflexivity|].
  cbn [closed_form o_AR o_q o_T2 o_T3 o_x n_add n_mul n_div n_neg exact].
  rewrite H1, H4.
  replace (valueR T1 + c - (valueR T4 + c)) with (valueR T1 - valueR T4) by lra.
  repeat split; lra.
Qed.

(** X7: in exact arithmetic, multiplying every conductivity by [a] and
    every thickness by [b] (a change of units, or a wall scaled in size)
    multiplies the area-resistances by [b/a], the flux by [a/b] and the
    positions by [b], and leaves [T2] and [T3] as they are. *)
Theorem exact_scaling
  (T1 T4 : pyval R) (a b : R) (k L : list R) (out : outputs R) :
  a <> 0 -> b <> 0 ->
  notebook T1 T4 k L = Ok out ->
  np_sum (o_AR out) <> 0 ->
  exists out',
    notebook T1 T4 (map (Rmult a) k) (map (Rmult b) L) = Ok out' /\
    o_AR out' = map (Rmult (b / a)) (o_AR out) /\
    o_q out' = a / b * o_q out /\
    o_T2 out' = o_T2 out /\
    o_T3 out' = o_T3 out /\
    map valueR (o_x out') = map (Rmult b) (map valueR (o_x out)).
Proof.
  intros Ha Hb. rewrite !exact_notebook_cases, !length_map, exact_zero_scale by exact Ha.
  destruct (existsb n_eq0 (firstn (length L) k)); [discriminate|].
  destruct (Nat.ltb_spec (length L) (length k)) as [|Hle]; [discriminate|].
  destruct (Nat.ltb_spec (length k) 3) as [|H3]; [discriminate|].
  cbn [orb]. intros Heq. injection Heq as <-. intros Hsum.
  eexists. split; [reflexivity|].
  cbn [closed_form o_AR o_q o_T2 o_T3 o_x] in *.
  rewrite exact_quotients_scale, exact_np_sum_scale.
  pose proof (quotients_length k L Hle) as Hq.
  set (S := np_sum (quotients k L)) in *.
  destruct (quotients k L) as [|a0 [|a1 [|a2 AR]]]; cbn [length] in Hq; try lia.
  destruct L as [|l0 [|l1 [|l2 L]]]; cbn [length] in Hle; try lia.
  cbn [map nth valueR n_add n_mul n_div n_neg n_zero exact].
  split; [reflexivity|].
  split; [field; repeat split; assumption|].
  split; [field; repeat split; assumption|].
  split; [field; repeat split; assumption|].
  repeat (apply f_equal2; [lra|]). reflexivity.
Qed.

(** X8: in exact arithmetic, a wall of three layers seen from the other
    side (the two boundary temperatures exchanged, the layers in reverse
    order) has the opposite flux and the same two inner temperatures,
    exchanged: the forward formula of [T2] and the backward formula of
    [T3] are each other's mirror image. *)
Theorem exact_mirror
  (T1 T4 : pyval R) (k L : list R) (out : outputs R) :
  length k = 3%nat -> length L = 3%nat ->
  notebook T1 T4 k L = Ok out ->
  exists out',
    notebook T4 T1 (rev k) (rev L) = Ok out' /\
    o_AR out' = rev (o_AR out) /\
    o_q out' = - o_q out /\
    o_T2 out' = o_T3 out /\
    o_T3 out' = o_T2 out.
Proof.
  intros Hk HL.
  destruct k as [|k0 [|k1 [|k2 [|k3 k]]]]; try discriminate.
  destruct L as [|l0 [|l1 [|l2 [|l3 L]]]]; try discriminate.
  rewrite !exact_notebook_cases.
  cbn [rev app length firstn existsb n_eq0 exact Nat.ltb Nat.leb orb].
  destruct (Req_dec_T k0 0), (Req_dec_T k1 0), (Req_dec_T k2 0);
    cbn [orb]; try discriminate.
  intros Heq. injection Heq as <-. eexists. split; [reflexivity|].
  cbn [closed_form quotients o_AR o_q o_T2 o_T3 nth rev app].
  rewrite !exact_np_sum_cons, exact_np_sum_nil.
  cbn [n_add n_mul n_div n_neg n_zero exact].
  replace (l2 / k2 + (l1 / k1 + (l0 / k0 + 0)))
    with (l0 / k0 + (l1 / k1 + (l2 / k2 + 0))) by lra.
  set (S := l0 / k0 + (l1 / k1 + (l2 / k2 + 0))).
  replace ((valueR T4 - valueR T1) / S) with (- ((valueR T1 - valueR T4) / S))
    by (unfold Rdiv; ring).
  repeat split; lra.
Qed.

Lemma exact_quotients_repeat (k0 : R) (L : list R) :
  quotients (repeat k0 (length L)) L = map (fun l => l / k0) L.
Proof.
  induction L as [|l L IH]; cbn [length repeat quotients map]; [reflexivity|].
  rewrite IH. reflexivity.
Qed.

Lemma exact_np_sum_div (k0 : R) (L : list R) :
  np_sum (map (fun l => l / k0) L) = np_sum L / k0.
Proof.
  induction L as [|l L IH]; cbn [map].
  - rewrite exact_np_sum_nil. unfold Rdiv. ring.
  - rewrite !exact_np_sum_cons, IH. unfold Rdiv. ring.
Qed.

(** X9: in exact arithmetic, a wall of one material cut into layers
    conducts as one layer of the total thickness: with every conductivity
    equal to [k0] the flux is [(T_first - T_last) * k0 / sum(L)], which for
    a single layer is Fourier's law [q = (T_first - T_last) * k / L]. *)
Theorem exact_homogeneous_wall (T1 T4 : pyval R) (k0 : R) (L : list R) :
  0 < k0 -> L <> [] -> Forall positiveR L ->
  exists AR q,
    cell_AR (repeat k0 (length L)) L = Ok AR /\
    cell_q T1 T4 AR = Ok q /\
    q = (valueR T1 - valueR T4) * k0 / np_sum L.
Proof.
  intros Hk0 Hne HL.
  pose proof (exact_np_sum_pos L Hne HL) as Hsum.
  exists (quotients (repeat k0 (length L)) L).
  eexists. split; [|split].
  - rewrite cell_AR_cases, repeat_length, Nat.ltb_irrefl.
    rewrite no_zero_prefix; [reflexivity|].
    apply exact_no_zero. apply Forall_forall. intros x Hx.
    apply repeat_spec in Hx. subst x. exact Hk0.
  - unfold cell_q. rewrite exact_float_diff. reflexivity.
  - rewrite exact_quotients_repeat, exact_np_sum_div.
    cbn [n_div exact]. field. split; lra.
Qed.

End ExactProperties.

Section ExactProperties2.
Local Open Scope R_scope.

(** X10: in exact arithmetic, when the notebook runs to its end with every
    area-resistance strictly positive and [T_first < T_last], the flux is
    negative (heat flows from the last boundary toward the first) and the
    temperatures of the profile increase strictly: [T1 < T2 < T3 < T4]. *)
Theorem exact_reverse_flow (T1 T4 : pyval R) (k L : list R) (out : outputs R) :
  notebook T1 T4 k L = Ok out ->
  Forall positiveR (o_AR out) ->
  valueR T1 < valueR T4 ->
  o_q out < 0 /\ increasing (map valueR (o_T out)).
Proof.
  intros Hrun HAR Hlt.
  apply exact_notebook_Ok_inv in Hrun as (H3 & Hle & ->).
  unfold closed_form in *. cbn [o_AR o_q o_T map valueR increasing] in *.
  pose proof (quotients_length k L Hle) as Hq.
  destruct (quotients k L) as [|a0 [|a1 [|a2 rest]]]; cbn [length] in Hq; try lia.
  inversion HAR as [|? ? Ha0 HAR1]; subst.
  inversion HAR1 as [|? ? Ha1 HAR2]; subst.
  inversion HAR2 as [|? ? Ha2 HAR3]; subst.
  pose proof (exact_np_sum_nonneg rest HAR3) as Hrest.
  rewrite !exact_np_sum_cons. cbn [nth n_add n_mul n_neg n_div exact].
  unfold positiveR in *.
  set (S := a0 + (a1 + (a2 + np_sum rest))).
  assert (HS : 0 < S) by (unfold S; lra).
  set (d := valueR T1 - valueR T4) in *.
  assert (Hd : d < 0) by (unfold d; lra).
  assert (HqS : d / S * S = d) by (field; lra).
  assert (Hqneg : d / S < 0).
  { unfold Rdiv. pose proof (Rinv_0_lt_compat _ HS). nra. }
  set (q := d / S) in *.
  repeat split; unfold S, d in *; nra.
Qed.

End ExactProperties2.

Section ExactExamples.
Local Open Scope R_scope.

Lemma exact_example_sum : np_sum (quotients k_exact L_exact) <> 0.
Proof.
  assert (H : 0 < np_sum (quotients k_exact L_exact)).
  { apply exact_np_sum_pos; [discriminate|].
    apply exact_quotients_pos; apply exact_example_positive. }
  lra.
Qed.

(** The worked example, from Celsius to kelvin. *)
Lemma exact_temperature_offset_witness :
  valueR (PyFloat (150 + 273.15)) = valueR T1_exact + 273.15 /\
  valueR (PyFloat (10 + 273.15)) = valueR T4_exact + 273.15 /\
  exists out',
    notebook (PyFloat (150 + 273.15)) (PyFloat (10 + 273.15)) k_exact L_exact = Ok out' /\
    o_q out' = o_q (closed_form (150 - 10) 150 10 T1_exact T4_exact k_exact L_exact).
Proof.
  assert (H1 : valueR (PyFloat (150 + 273.15)) = valueR T1_exact + 273.15)
    by reflexivity.
  assert (H4 : valueR (PyFloat (10 + 273.15)) = valueR T4_exact + 273.15)
    by reflexivity.
  split; [exact H1|]. split; [exact H4|].
  destruct (exact_temperature_offset T1_exact T4_exact _ _ 273.15 k_exact L_exact _
              H1 H4 exact_example_runs) as (out' & Hrun & _ & Hq & _).
  exists out'. split; [exact Hrun|exact Hq].
Defined.

(** The worked example with conductivities doubled and thicknesses
    tripled. *)
Lemma exact_scaling_witness :
  2 <> 0 /\ 3 <> 0 /\
  np_sum (o_AR (closed_form (150 - 10) 150 10 T1_exact T4_exact k_exact L_exact)) <> 0 /\
  exists out',
    notebook T1_exact T4_exact (map (Rmult 2) k_exact) (map (Rmult 3) L_exact) = Ok out' /\
    o_q out' = 2 / 3 * o_q (closed_form (150 - 10) 150 10 T1_exact T4_exact k_exact L_exact) /\
    o_T2 out' = o_T2 (closed_form (150 - 10) 150 10 T1_exact T4_exact k_exact L_exact).
Proof.
  assert (H2 : 2 <> 0) by lra.
  assert (H3 : 3 <> 0) by lra.
  split; [exact H2|]. split; [exact H3|]. split; [exact exact_example_sum|].
  destruct (exact_scaling T1_exact T4_exact 2 3 k_exact L_exact _
              H2 H3 exact_example_runs exact_example_sum)
    as (out' & Hrun & _ & Hq & HT2 & _).
  exists out'. split; [exact Hrun|]. split; [exact Hq|exact HT2].
Defined.

(** The worked example seen from the other side. *)
Lemma exact_mirror_witness :
  length k_exact = 3%nat /\ length L_exact = 3%nat /\
  exists out',
    notebook T4_exact T1_exact (rev k_exact) (rev L_exact) = Ok out' /\
    o_q out' = - o_q (closed_form (150 - 10) 150 10 T1_exact T4_exact k_exact L_exact) /\
    o_T2 out' = o_T3 (closed_form (150 - 10) 150 10 T1_exact T4_exact k_exact L_exact) /\
    o_T3 out' = o_T2 (closed_form (150 - 10) 150 10 T1_exact T4_exact k_exact L_exact).
Proof.
  assert (Hk : length k_exact = 3%nat) by reflexivity.
  assert (HL : length L_exact = 3%nat) by reflexivity.
  split; [exact Hk|]. split; [exact HL|].
  destruct (exact_mirror T1_exact T4_exact k_exact L_exact _ Hk HL exact_example_runs)
    as (out' & Hrun & _ & Hq & H2 & H3).
  exists out'. repeat split; assumption.
Defined.

(** A wall of conductivity 0.7 in the three thicknesses of the worked
    example. *)
Lemma exact_homogeneous_wall_witness :
  0 < 7 / 10 /\ L_exact <> [] /\ Forall positiveR L_exact /\
  exists AR q,
    cell_AR (repeat (7 / 10) (length L_exact)) L_exact = Ok AR /\
    cell_q T1_exact T4_exact AR = Ok q /\
    q = (valueR T1_exact - valueR T4_exact) * (7 / 10) / np_sum L_exact.
Proof.
  assert (Hk0 : 0 < 7 / 10) by lra.
  assert (Hne : L_exact <> []) by discriminate.
  split; [exact Hk0|]. split; [exact Hne|].
  split; [apply exact_example_positive|].
  exact (exact_homogeneous_wall T1_exact T4_exact (7 / 10) L_exact Hk0 Hne
           (proj2 exact_example_positive)).
Defined.

(** The worked example with its two temperatures exchanged. *)
Lemma exact_reverse_flow_witness :
  notebook T4_exact T1_exact k_exact L_exact
  = Ok (closed_form (10 - 150) 10 150 T4_exact T1_exact k_exact L_exact) /\
  Forall positiveR
    (o_AR (closed_form (10 - 150) 10 150 T4_exact T1_exact k_exact L_exact)) /\
  valueR T4_exact < valueR T1_exact /\
  o_q (closed_form (10 - 150) 10 150 T4_exact T1_exact k_exact L_exact) < 0 /\
  increasing
    (map valueR (o_T (closed_form (10 - 150) 10 150 T4_exact T1_exact k_exact L_exact))).
Proof.
  assert (Hrun : notebook T4_exact T1_exact k_exact L_exact
                 = Ok (closed_form (10 - 150) 10 150 T4_exact T1_exact k_exact L_exact)).
  { apply (exact_notebook_ok T4_exact T1_exact k_exact L_exact).
    - cbn. lia.
    - cbn. lia.
    - apply exact_example_positive. }
  assert (HAR : Forall positiveR
                  (o_AR (closed_form (10 - 150) 10 150 T4_exact T1_exact k_exact L_exact)))
    by (apply exact_quotients_pos; apply exact_example_positive).
  assert (Hlt : valueR T4_exact < valueR T1_exact) by (cbn; lra).
  split; [exact Hrun|]. split; [exact HAR|]. split; [exact Hlt|].
  exact (exact_reverse_flow T4_exact T1_exact k_exact L_exact _ Hrun HAR Hlt).
Defined.

End ExactExamples.

(** * The total resistance and the flux

    The statements of this section relate the flux cell to the sum of the
    area-resistances, in binary64 and in exact arithmetic. *)

Section TotalAndFlux.
Local Open Scope R_scope.

Lemma sum_of_fold_left (l : list R) : fold_left Rplus l 0 = sum_of l.
Proof.
  induction l as [|r l IH]; [reflexivity|].
  cbn [fold_left sum_of fold_right]. rewrite exact_fold_left_shift.
  fold (sum_of l). rewrite IH. lra.
Qed.

(** In exact arithmetic [np.sum] computes the sum of the elements, however
    many they are. *)
Lemma exact_np_sum_total (l : list R) : np_sum l = sum_of l.
Proof. rewrite exact_np_sum. apply sum_of_fold_left. Qed.

(** C2: for conductivities and thicknesses of the same length, every
    conductivity positive, the loop returns a list [AR] as long as the
    input whose [i]-th element is [L[i]/k[i]], and the total resistance the
    flux cell divides by is [np.sum(AR)], the sum of these elements.  In
    binary64 the quotients are the rounded ones and, for fewer than eight
    layers, the sum is the identity [0.0] plus the elements added from
    left to right starting from [0.0], each addition rounded.  In exact
    arithmetic the sum is the mathematical sum of the elements, for any
    number of layers, and the flux is the temperature difference divided
    by it.  (Neither the positivity of the thicknesses nor a non-empty
    input is needed.) *)
Theorem resistances_per_layer :
  (forall k L : list float,
      length L = length k ->
      Forall positive64 k ->
      exists AR,
        cell_AR k L = Ok AR /\
        length AR = length k /\
        (forall i, (i < length k)%nat ->
           nth i AR 0%float = (nth i L 0 / nth i k 0)%float) /\
        (forall T1 T4 d, float_diff T1 T4 = Ok d ->
           cell_q T1 T4 AR = Ok (d / np_sum AR)%float) /\
        ((length k < 8)%nat ->
           np_sum AR = (0 + fold_left PrimFloat.add AR 0)%float)) /\
  (forall k L : list R,
      length L = length k ->
      Forall positiveR k ->
      exists AR,
        cell_AR k L = Ok AR /\
        length AR = length k /\
        (forall i, (i < length k)%nat -> nth i AR 0 = nth i L 0 / nth i k 0) /\
        np_sum AR = sum_of AR /\
        (forall T1 T4,
           cell_q T1 T4 AR = Ok ((valueR T1 - valueR T4) / sum_of AR))).
Proof.
  split.
  - intros k L Hlen Hpos. exists (quotients k L).
    assert (Hnz : Forall (fun ki => n_eq0 ki = false) k).
    { eapply Forall_impl; [|exact Hpos]. apply positive64_nonzero. }
    pose proof (quotients_length k L ltac:(lia)) as Hql.
    split; [|split; [|split; [|split]]].
    + rewrite cell_AR_cases, (no_zero_prefix k _ Hnz), Hlen, Nat.ltb_irrefl.
      reflexivity.
    + exact Hql.
    + intros i Hi. exact (quotients_nth k L 0%float i Hi ltac:(lia)).
    + intros T1 T4 d Hd. unfold cell_q. rewrite Hd. reflexivity.
    + intros H8. unfold np_sum. rewrite pairwise_sum_short by lia. reflexivity.
  - intros k L Hlen Hpos. exists (quotients k L).
    split; [|split; [|split; [|split]]].
    + rewrite cell_AR_cases, (no_zero_prefix k _ (exact_no_zero k Hpos)).
      rewrite Hlen, Nat.ltb_irrefl. reflexivity.
    + apply quotients_length. lia.
    + intros i Hi. exact (quotients_nth k L 0 i Hi ltac:(lia)).
    + apply exact_np_sum_total.
    + intros T1 T4. unfold cell_q. rewrite exact_float_diff. cbn [bind].
      rewrite exact_np_sum_total. reflexivity.
Qed.

(** The worked example meets the hypotheses of [resistances_per_layer],
    with its decimals as binary64 values and as rationals. *)
Lemma resistances_per_layer_witness :
  (length L_example = length k_example /\
   Forall positive64 k_example /\
   (length k_example < 8)%nat /\
   exists AR,
     cell_AR k_example L_example = Ok AR /\
     length AR = length k_example /\
     (forall i, (i < length k_example)%nat ->
        nth i AR 0%float = (nth i L_example 0 / nth i k_example 0)%float) /\
     (forall T1 T4 d, float_diff T1 T4 = Ok d ->
        cell_q T1 T4 AR = Ok (d / np_sum AR)%float) /\
     np_sum AR = (0 + fold_left PrimFloat.add AR 0)%float) /\
  (length L_exact = length k_exact /\
   Forall positiveR k_exact /\
   exists AR,
     cell_AR k_exact L_exact = Ok AR /\
     length AR = length k_exact /\
     (forall i, (i < length k_exact)%nat ->
        nth i AR 0 = nth i L_exact 0 / nth i k_exact 0) /\
     np_sum AR = sum_of AR /\
     (forall T1 T4,
        cell_q T1 T4 AR = Ok ((valueR T1 - valueR T4) / sum_of AR))).
Proof.
  split.
  - assert (Hlen : length L_example = length k_example) by reflexivity.
    assert (Hpos : Forall positive64 k_example) by (repeat constructor).
    assert (H8 : (length k_example < 8)%nat) by (cbn; lia).
    split; [exact Hlen|]. split; [exact Hpos|]. split; [exact H8|].
    destruct (proj1 resistances_per_layer k_example L_example Hlen Hpos)
      as (AR & Hrun & Hl & Hnth & Hq & Hsum).
    exists AR. repeat split; try assumption. apply Hsum. exact H8.
  - assert (Hlen : length L_exact = length k_exact) by reflexivity.
    split; [exact Hlen|]. split; [apply exact_example_positive|].
    apply (proj2 resistances_per_layer k_exact L_exact Hlen).
    apply exact_example_positive.
Defined.

(** C3 (as amended): in any arithmetic the flux cell returns
    [float(T1 - T4)] divided by [np.sum(AR)], the formula
    [q = (T_first - T_last) / R_total].  In binary64, for a positive total
    area-resistance: if [q] is positive then [T_first > T_last]; and if
    [T_first > T_last] and the total is finite, then [q] is positive or
    zero, and not a NaN (it is 0.0 when the quotient underflows).  In
    exact arithmetic, for every positive total, [q] is positive exactly
    when [T_first > T_last]. *)
Theorem flux_formula_and_sign :
  (forall (num : Type) (A : Arith num) (T1 T4 : pyval num) (AR : list num) (d : num),
      float_diff T1 T4 = Ok d ->
      cell_q T1 T4 AR = Ok (n_div d (np_sum AR))) /\
  (forall (T1 T4 : pyval float) (AR : list float) (d : float),
      float_diff T1 T4 = Ok d ->
      positive64 (np_sum AR) ->
      exists q,
        cell_q T1 T4 AR = Ok q /\
        (positive64 q -> warmer64 T1 T4) /\
        (finite64 (np_sum AR) -> warmer64 T1 T4 -> nonneg64 q)) /\
  (forall (T1 T4 : pyval R) (AR : list R),
      0 < np_sum AR ->
      exists q,
        cell_q T1 T4 AR = Ok q /\
        q = (valueR T1 - valueR T4) / np_sum AR /\
        (0 < q <-> valueR T4 < valueR T1)).
Proof.
  split; [|split].
  - intros num A T1 T4 AR d Hd. unfold cell_q. rewrite Hd. reflexivity.
  - intros T1 T4 AR d Hd Hpos.
    destruct (cell_q_sign64 T1 T4 AR d Hd Hpos) as (Hq & Ha & Hb).
    exists (d / np_sum AR)%float. split; [exact Hq|]. split; assumption.
  - intros T1 T4 AR Hpos. unfold cell_q. rewrite exact_float_diff. cbn [bind].
    eexists. split; [reflexivity|]. split; [reflexivity|].
    cbn [n_div exact]. unfold Rdiv.
    pose proof (Rinv_0_lt_compat _ Hpos) as Hinv.
    split; intros H; nra.
Qed.

(** The flux cell between the temperatures of the worked example, on a
    total resistance of 1.0 in binary64 and on the area-resistances of the
    example in exact arithmetic. *)
Lemma flux_formula_and_sign_witness :
  cell_q T1_example T4_example [0.5; 0.25; 0.25]%float
  = Ok (140 / np_sum [0.5; 0.25; 0.25])%float /\
  (float_diff T1_example T4_example = Ok 140%float /\
   positive64 (np_sum [0.5; 0.25; 0.25]%float) /\
   finite64 (np_sum [0.5; 0.25; 0.25]%float) /\
   warmer64 T1_example T4_example /\
   exists q,
     cell_q T1_example T4_example [0.5; 0.25; 0.25]%float = Ok q /\
     (positive64 q -> warmer64 T1_example T4_example) /\
     nonneg64 q) /\
  (0 < np_sum (quotients k_exact L_exact) /\
   exists q,
     cell_q T1_exact T4_exact (quotients k_exact L_exact) = Ok q /\
     q = (valueR T1_exact - valueR T4_exact) / np_sum (quotients k_exact L_exact) /\
     (0 < q <-> valueR T4_exact < valueR T1_exact)).
Proof.
  assert (Hd : float_diff T1_example T4_example = Ok 140%float) by reflexivity.
  assert (Hp : positive64 (np_sum [0.5; 0.25; 0.25]%float)) by reflexivity.
  assert (Hf : finite64 (np_sum [0.5; 0.25; 0.25]%float)) by reflexivity.
  assert (Hw : warmer64 T1_example T4_example) by (cbn; lia).
  assert (H : 0 < np_sum (quotients k_exact L_exact)).
  { apply exact_np_sum_pos; [discriminate|].
    apply exact_quotients_pos; apply exact_example_positive. }
  split; [|split].
  - apply (proj1 flux_formula_and_sign float binary64 T1_example T4_example).
    exact Hd.
  - split; [exact Hd|]. split; [exact Hp|]. split; [exact Hf|]. split; [exact Hw|].
    destruct (proj1 (proj2 flux_formula_and_sign) T1_example T4_example
                [0.5; 0.25; 0.25]%float 140%float Hd Hp) as (q & Hq & Ha & Hb).
    exists q. split; [exact Hq|]. split; [exact Ha|]. apply Hb; assumption.
  - split; [exact H|].
    apply (proj2 (proj2 flux_formula_and_sign) T1_exact T4_exact
             (quotients k_exact L_exact) H).
Defined.

(** C8 (as amended): the flux depends on the layers only through the
    total resistance [np.sum(AR)] the flux cell computes.  In any
    arithmetic, two layer sequences on which the computed sums are equal
    give the same outcome of the flux cell and the same [q].  In exact
    arithmetic, two layer sequences whose area-resistances have the same
    mathematical sum give, between the same two temperatures, the same
    flux [q = (T_first - T_last) / R_total], however the total is cut into
    layers. *)
Theorem flux_depends_on_total_only :
  (forall (num : Type) (A : Arith num) (T1 T4 : pyval num)
          (ka La kb Lb ARa ARb : list num),
      cell_AR ka La = Ok ARa ->
      cell_AR kb Lb = Ok ARb ->
      np_sum ARa = np_sum ARb ->
      cell_q T1 T4 ARa = cell_q T1 T4 ARb /\
      (forall outa outb,
         notebook T1 T4 ka La = Ok outa ->
         notebook T1 T4 kb Lb = Ok outb ->
         o_q outa = o_q outb)) /\
  (forall (T1 T4 : pyval R) (ka La kb Lb ARa ARb : list R),
      cell_AR ka La = Ok ARa ->
      cell_AR kb Lb = Ok ARb ->
      sum_of ARa = sum_of ARb ->
      exists q,
        q = (valueR T1 - valueR T4) / sum_of ARa /\
        cell_q T1 T4 ARa = Ok q /\
        cell_q T1 T4 ARb = Ok q /\
        (forall outa outb,
           notebook T1 T4 ka La = Ok outa ->
           notebook T1 T4 kb Lb = Ok outb ->
           o_q outa = q /\ o_q outb = q)).
Proof.
  split.
  - intros num A T1 T4 ka La kb Lb ARa ARb Ha Hb Hsum.
    assert (Hq : cell_q T1 T4 ARa = cell_q T1 T4 ARb).
    { unfold cell_q. rewrite Hsum. reflexivity. }
    split; [exact Hq|].
    intros outa outb Hra Hrb.
    apply notebook_Ok_cells in Hra as [Ha' Hqa].
    apply notebook_Ok_cells in Hrb as [Hb' Hqb].
    rewrite Ha in Ha'. rewrite Hb in Hb'.
    injection Ha' as Ea. injection Hb' as Eb.
    rewrite <- Ea in Hqa. rewrite <- Eb in Hqb.
    rewrite Hq, Hqb in Hqa. injection Hqa as Eq. symmetry. exact Eq.
  - intros T1 T4 ka La kb Lb ARa ARb Ha Hb Hsum.
    exists ((valueR T1 - valueR T4) / sum_of ARa).
    assert (Hqa : cell_q T1 T4 ARa = Ok ((valueR T1 - valueR T4) / sum_of ARa)).
    { unfold cell_q. rewrite exact_float_diff. cbn [bind].
      rewrite exact_np_sum_total. reflexivity. }
    assert (Hqb : cell_q T1 T4 ARb = Ok ((valueR T1 - valueR T4) / sum_of ARa)).
    { unfold cell_q. rewrite exact_float_diff. cbn [bind].
      rewrite exact_np_sum_total, Hsum. reflexivity. }
    split; [reflexivity|]. split; [exact Hqa|]. split; [exact Hqb|].
    intros outa outb Hra Hrb.
    apply notebook_Ok_cells in Hra as [Ha' Hqa'].
    apply notebook_Ok_cells in Hrb as [Hb' Hqb'].
    rewrite Ha in Ha'. rewrite Hb in Hb'.
    injection Ha' as Ea. injection Hb' as Eb.
    rewrite <- Ea in Hqa'. rewrite <- Eb in Hqb'.
    rewrite Hqa in Hqa'. rewrite Hqb in Hqb'.
    injection Hqa' as Eqa. injection Hqb' as Eqb.
    split; symmetry; assumption.
Qed.

(** In binary64, three layers of 0.5, 0.25 and 0.25 and four layers of
    0.25 have the same computed total, 1.0, and the same flux; in exact
    arithmetic, a wall of layers 1/10, 2/10 and 3/10 and the same wall
    seen from the other side have the same total and the same flux. *)
Lemma flux_depends_on_total_only_witness :
  (cell_AR [1; 1; 1]%float [0.5; 0.25; 0.25]%float = Ok [0.5; 0.25; 0.25]%float /\
   cell_AR [1; 1; 1; 1]%float [0.25; 0.25; 0.25; 0.25]%float
   = Ok [0.25; 0.25; 0.25; 0.25]%float /\
   np_sum [0.5; 0.25; 0.25]%float = np_sum [0.25; 0.25; 0.25; 0.25]%float /\
   cell_q T1_example T4_example [0.5; 0.25; 0.25]%float
   = cell_q T1_example T4_example [0.25; 0.25; 0.25; 0.25]%float) /\
  (cell_AR [1; 1; 1] [1 / 10; 2 / 10; 3 / 10]
   = Ok (quotients [1; 1; 1] [1 / 10; 2 / 10; 3 / 10]) /\
   cell_AR [1; 1; 1] [3 / 10; 2 / 10; 1 / 10]
   = Ok (quotients [1; 1; 1] [3 / 10; 2 / 10; 1 / 10]) /\
   sum_of (quotients [1; 1; 1] [1 / 10; 2 / 10; 3 / 10])
   = sum_of (quotients [1; 1; 1] [3 / 10; 2 / 10; 1 / 10]) /\
   exists q,
     q = (valueR T1_exact - valueR T4_exact)
         / sum_of (quotients [1; 1; 1] [1 / 10; 2 / 10; 3 / 10]) /\
     cell_q T1_exact T4_exact (quotients [1; 1; 1] [1 / 10; 2 / 10; 3 / 10]) = Ok q /\
     cell_q T1_exact T4_exact (quotients [1; 1; 1] [3 / 10; 2 / 10; 1 / 10]) = Ok q).
Proof.
  split.
  - assert (Ha : cell_AR [1; 1; 1]%float [0.5; 0.25; 0.25]%float
                 = Ok [0.5; 0.25; 0.25]%float) by reflexivity.
    assert (Hb : cell_AR [1; 1; 1; 1]%float [0.25; 0.25; 0.25; 0.25]%float
                 = Ok [0.25; 0.25; 0.25; 0.25]%float) by reflexivity.
    assert (Hs : np_sum [0.5; 0.25; 0.25]%float
                 = np_sum [0.25; 0.25; 0.25; 0.25]%float) by reflexivity.
    split; [exact Ha|]. split; [exact Hb|]. split; [exact Hs|].
    exact (proj1 (proj1 flux_depends_on_total_only float binary64
                    T1_example T4_example _ _ _ _ _ _ Ha Hb Hs)).
  - assert (Hk : Forall positiveR [1; 1; 1])
      by (repeat constructor; unfold positiveR; lra).
    assert (Hrun : forall L : list R, length L = 3%nat ->
              cell_AR [1; 1; 1] L = Ok (quotients [1; 1; 1] L)).
    { intros L HL.
      rewrite cell_AR_cases, (no_zero_prefix _ _ (exact_no_zero _ Hk)), HL.
      reflexivity. }
    assert (Ha := Hrun [1 / 10; 2 / 10; 3 / 10] eq_refl).
    assert (Hb := Hrun [3 / 10; 2 / 10; 1 / 10] eq_refl).
    assert (Hs : sum_of (quotients [1; 1; 1] [1 / 10; 2 / 10; 3 / 10])
                 = sum_of (quotients [1; 1; 1] [3 / 10; 2 / 10; 1 / 10]))
      by (cbn; lra).
    split; [exact Ha|]. split; [exact Hb|]. split; [exact Hs|].
    destruct (proj2 flux_depends_on_total_only T1_exact T4_exact
                _ _ _ _ _ _ Ha Hb Hs) as (q & Eq & Hqa & Hqb & _).
    exists q. split; [exact Eq|]. split; assumption.
Defined.

(** C8, where it fails in binary64: a wall of three layers of
    area-resistances 0.1, 0.2 and 0.3 and the same wall seen from the other
    side have the same layers, so the same total resistance, and the same
    boundary temperatures; [np.sum] rounds after each addition and gives
    0.6000000000000001 for the one and 0.6 for the other, and the two
    values of [q] differ. *)
Lemma total_partition_counterexample :
  exists outa outb,
    notebook T1_example T4_example [1; 1; 1]%float [0.1; 0.2; 0.3]%float = Ok outa /\
    notebook T1_example T4_example [1; 1; 1]%float [0.3; 0.2; 0.1]%float = Ok outb /\
    o_AR outa = [0.1; 0.2; 0.3]%float /\
    o_AR outb = rev (o_AR outa) /\
    Forall positive64 (o_AR outa) /\
    (exists s, exact_sum64 (o_AR outa) = Some s /\ exact_sum64 (o_AR outb) = Some s) /\
    np_sum (o_AR outa) = 0.60000000000000009%float /\
    np_sum (o_AR outb) = 0.59999999999999998%float /\
    o_q outa = 233.33333333333329%float /\
    o_q outb = 233.33333333333334%float /\
    PrimFloat.eqb (o_q outa) (o_q outb) = false.
Proof.
  eexists. eexists.
  split; [vm_compute; reflexivity|]. split; [vm_compute; reflexivity|].
  split; [reflexivity|]. split; [reflexivity|].
  split; [repeat constructor|].
  split; [eexists; split; vm_compute; reflexivity|].
  repeat split; vm_compute; reflexivity.
Qed.

End TotalAndFlux.
